(** * Warband face editor backend: face-code codec, profile parser and endpoints

    A shallow embedding of the Python backend
    ([app/models/face.py], [app/services/face_code_service.py],
    [app/services/profile_parser.py] and the endpoints under
    [app/api/api_v1/endpoints]) together with the properties its
    specification states about it.

    Python's unbounded [int] is [Z]; [>>], [<<], [&] and [|] are
    [Z.shiftr], [Z.shiftl], [Z.land] and [Z.lor], which agree with Python
    on negative numbers too.  A [str] is a [string] of ASCII characters.
    A call that may raise returns a [result]. *)

From Stdlib Require Import ZArith List String Ascii Bool Lia DecimalString.
Import ListNotations.

Local Open Scope string_scope.
Local Open Scope Z_scope.

(** ** Exceptions and results *)

Module Py.

(** The exception values the modelled code can see.  [ValidationError]
    (pydantic) and [JSONDecodeError] (json) are subclasses of Python's
    [ValueError]; every constructor is a subclass of [Exception]. *)
Inductive exn : Type :=
| ValueError (msg : string)
| InvalidLiteral (base : Z) (literal : string)
| ValidationError (fields : list string)
| JSONDecodeError (msg : string)
| IndexError (msg : string)
| KeyError (key : string)
| TypeError (msg : string)
| AttributeError (msg : string)
| HTTPException (status_code : Z) (detail : string)
| WebSocketDisconnect
| OtherException (msg : string).

(** [isinstance(e, ValueError)]: what [except ValueError] catches.
    [InvalidLiteral] is the [ValueError] that [int(s, base)] raises. *)
Definition is_ValueError (e : exn) : bool :=
  match e with
  | ValueError _ | InvalidLiteral _ _ | ValidationError _ | JSONDecodeError _ => true
  | _ => false
  end.

Inductive result (A : Type) : Type :=
| Ok (a : A)
| Raise (e : exn).
Arguments Ok {A} a.
Arguments Raise {A} e.

Definition bind {A B : Type} (r : result A) (k : A -> result B) : result B :=
  match r with
  | Ok a => k a
  | Raise e => Raise e
  end.

(** [try: body  except C as e: handler e], where [catches] decides
    [isinstance(e, C)]. *)
Definition try_except {A : Type} (body : result A) (catches : exn -> bool)
    (handler : exn -> result A) : result A :=
  match body with
  | Ok a => Ok a
  | Raise e => if catches e then handler e else Raise e
  end.

Definition is_Exception (_ : exn) : bool := true.

End Py.
Import Py.

Notation "x <- c1 ;; c2" := (Py.bind c1 (fun x => c2))
  (at level 61, c1 at next level, right associativity).

(** ** Strings: the pieces of Python's [str] and [int] the codec uses *)

Module PyStr.

Fixpoint drop (n : nat) (s : string) : string :=
  match n, s with
  | O, _ => s
  | S _, EmptyString => EmptyString
  | S k, String _ r => drop k r
  end.

Fixpoint repeat_char (c : ascii) (n : nat) : string :=
  match n with
  | O => EmptyString
  | S k => String c (repeat_char c k)
  end.

(** [s.startswith(p)] is [String.prefix p s]. *)
Definition startswith (s p : string) : bool := String.prefix p s.

(** The digit characters of the ['x'] presentation type. *)
Definition hex_digit (d : Z) : ascii :=
  match d with
  | 0 => "0" | 1 => "1" | 2 => "2" | 3 => "3" | 4 => "4" | 5 => "5"
  | 6 => "6" | 7 => "7" | 8 => "8" | 9 => "9" | 10 => "a" | 11 => "b"
  | 12 => "c" | 13 => "d" | 14 => "e" | _ => "f"
  end%char.

Fixpoint hex_digits_aux (fuel : nat) (z : Z) (acc : string) : string :=
  match fuel with
  | O => acc
  | S f =>
      let acc' := String (hex_digit (z mod 16)) acc in
      if z <? 16 then acc' else hex_digits_aux f (z / 16) acc'
  end.

(** [format(z, 'x')] for [0 <= z]: the hexadecimal digits, most
    significant first, ["0"] for zero.  The fuel is the bit length. *)
Definition to_hex (z : Z) : string :=
  hex_digits_aux (S (Z.to_nat (Z.log2 z))) z EmptyString.

Definition zfill (width : nat) (s : string) : string :=
  repeat_char "0" (width - String.length s) ++ s.

(** [f"{z:016x}"]: sign-aware zero padding to a minimum width of 16. *)
Definition format_016x (z : Z) : string :=
  if z <? 0 then String "-" (zfill 15 (to_hex (- z)))
  else zfill 16 (to_hex z).

(** [Py_ISSPACE]: tab, line feed, vertical tab, form feed, carriage
    return, space. *)
Definition isspace (c : ascii) : bool :=
  let n := nat_of_ascii c in
  ((9 <=? n) && (n <=? 13))%nat || (n =? 32)%nat.

(** [_PyLong_DigitValue] restricted to base 16. *)
Definition hex_value (c : ascii) : option Z :=
  let n := Z.of_nat (nat_of_ascii c) in
  if (48 <=? n) && (n <=? 57) then Some (n - 48)
  else if (97 <=? n) && (n <=? 102) then Some (n - 87)
  else if (65 <=? n) && (n <=? 70) then Some (n - 55)
  else None.

Fixpoint skip_space (s : string) : string :=
  match s with
  | String c r => if isspace c then skip_space r else s
  | EmptyString => EmptyString
  end.

(** The digit scan of [long_from_binary_base]: hexadecimal digits with
    single underscores between them.  [prev_us] records that the
    previous character was an underscore; the result is the value, the
    number of digits and the unread rest, or [None] on a doubled or
    trailing underscore. *)
Fixpoint scan_digits (prev_us : bool) (acc : Z) (n : nat) (s : string)
  : option (Z * nat * string) :=
  match s with
  | EmptyString => if prev_us then None else Some (acc, n, EmptyString)
  | String c r =>
      if Ascii.eqb c "_" then
        if prev_us then None else scan_digits true acc n r
      else
        match hex_value c with
        | Some d => scan_digits false (acc * 16 + d) (S n) r
        | None => if prev_us then None else Some (acc, n, s)
        end
  end.

(** An optional sign. *)
Definition strip_sign (s : string) : Z * string :=
  match s with
  | String c r =>
      if Ascii.eqb c "+" then (1, r)
      else if Ascii.eqb c "-" then (-1, r)
      else (1, s)
  | EmptyString => (1, s)
  end.

(** An optional [0x] or [0X], and one underscore that may follow it. *)
Definition strip_base_prefix (s : string) : string :=
  match s with
  | String c0 (String c1 r) =>
      if Ascii.eqb c0 "0" && (Ascii.eqb c1 "x" || Ascii.eqb c1 "X") then
        match r with
        | String c2 r' => if Ascii.eqb c2 "_" then r' else r
        | EmptyString => r
        end
      else s
  | _ => s
  end.

Definition starts_with_underscore (s : string) : bool :=
  match s with
  | String c _ => Ascii.eqb c "_"
  | EmptyString => false
  end.

(** [int(s, 16)] on an ASCII string, after [PyLong_FromString]:
    leading whitespace, an optional sign, an optional [0x]/[0X] prefix,
    the digits (none is an error, and so is a leading underscore),
    trailing whitespace and nothing else.  [None] stands for the
    [ValueError]. *)
Definition parse_int16 (s : string) : option Z :=
  let '(sign, s2) := strip_sign (skip_space s) in
  let s3 := strip_base_prefix s2 in
  if starts_with_underscore s3 then None
  else
    match scan_digits false 0 0%nat s3 with
    | None => None
    | Some (v, n, rest) =>
        match n with
        | O => None
        | S _ =>
            match skip_space rest with
            | EmptyString => Some (sign * v)
            | String _ _ => None
            end
        end
    end.

Definition int16 (s : string) : result Z :=
  match parse_int16 s with
  | Some z => Ok z
  | None => Raise (InvalidLiteral 16 s)
  end.

(** A non-empty run of hexadecimal digits and nothing else. *)
Fixpoint all_hex (s : string) : bool :=
  match s with
  | EmptyString => true
  | String c r =>
      match hex_value c with
      | Some _ => all_hex r
      | None => false
      end
  end.

Definition is_hex_digits (s : string) : bool :=
  match s with
  | EmptyString => false
  | String _ _ => all_hex s
  end.

(** The characters [0-9a-f]. *)
Definition is_lower_hex (c : ascii) : bool :=
  let n := Z.of_nat (nat_of_ascii c) in
  ((48 <=? n) && (n <=? 57)) || ((97 <=? n) && (n <=? 102)).

Fixpoint all_lower_hex (s : string) : bool :=
  match s with
  | EmptyString => true
  | String c r => is_lower_hex c && all_lower_hex r
  end.

(** The base-16 value of a run of digits, most significant first. *)
Fixpoint hex_fold (acc : Z) (s : string) : Z :=
  match s with
  | EmptyString => acc
  | String c r =>
      match hex_value c with
      | Some d => hex_fold (acc * 16 + d) r
      | None => acc
      end
  end.

End PyStr.

(** ** Data model ([app/models/face.py]) *)

Module Model.

(** [FaceParameters]: the fields as the class declares them.  The record
    itself carries no range constraint; [FaceParameters_init] is the
    validating constructor. *)
Record FaceParameters : Type := mkFaceParameters {
  morphs : list Z;
  hair_index : Z;
  beard_index : Z;
  age : Z;
  skin_tone : Z
}.

Definition in_range (lo hi v : Z) : bool := (lo <=? v) && (v <=? hi).

(** [Field(..., min_length=8, max_length=8)] and [validate_morph_values]. *)
Definition morphs_ok (v : list Z) : bool :=
  (List.length v =? 8)%nat && forallb (in_range 0 7) v.

(** [Field(ge=0, le=63)]. *)
Definition index_ok (v : Z) : bool := in_range 0 63 v.

Definition valid_tones : list Z := [0; 1; 2; 3; 4].

(** [Field(ge=0, le=4)] and [validate_skin_tone]. *)
Definition skin_tone_ok (v : Z) : bool :=
  in_range 0 4 v && existsb (Z.eqb v) valid_tones.

Definition field_error (name : string) (ok : bool) : list string :=
  if ok then [] else [name].

Definition FaceParameters_errors (p : FaceParameters) : list string :=
  (field_error "morphs" (morphs_ok (morphs p)) ++
   field_error "hair_index" (index_ok (hair_index p)) ++
   field_error "beard_index" (index_ok (beard_index p)) ++
   field_error "age" (index_ok (age p)) ++
   field_error "skin_tone" (skin_tone_ok (skin_tone p)))%list.

(** [FaceParameters(morphs=..., hair_index=..., ...)] on integer
    arguments: every field is checked and the failures are reported
    together in one [ValidationError]. *)
Definition FaceParameters_init (m : list Z) (hair beard a skin : Z)
  : result FaceParameters :=
  let p := mkFaceParameters m hair beard a skin in
  match FaceParameters_errors p with
  | [] => Ok p
  | errs => Raise (ValidationError errs)
  end.

(** A record that the constructor accepts. *)
Definition valid (p : FaceParameters) : Prop :=
  FaceParameters_init (morphs p) (hair_index p) (beard_index p) (age p)
    (skin_tone p) = Ok p.

(** [FaceCode.hex_code]: the pattern [^0x[0-9a-fA-F]+$], applied with
    [re.match]; [$] also matches before one final line feed. *)
Fixpoint hex_run_to_end (s : string) : bool :=
  match s with
  | EmptyString => true
  | String c r =>
      match PyStr.hex_value c with
      | Some _ => hex_run_to_end r
      | None => Ascii.eqb c "010" && String.eqb r EmptyString
      end
  end.

Definition FaceCode_pattern (s : string) : bool :=
  match s with
  | String "0" (String "x" (String c r)) =>
      match PyStr.hex_value c with
      | Some _ => hex_run_to_end r
      | None => false
      end
  | _ => false
  end.

(** [Character]: [sex] is declared [Field(ge=0, le=1)], the other
    fields are unconstrained. *)
Record Character : Type := mkCharacter {
  name : string;
  face_code : string;
  sex : Z;
  skin : Z
}.

Definition Character_init (n fc : string) (sx sk : Z) : result Character :=
  if in_range 0 1 sx then Ok (mkCharacter n fc sx sk)
  else Raise (ValidationError ["sex"]).

End Model.
Import Model.

(** ** The codec ([app/services/face_code_service.py]) *)

Module FaceCodeService.

Definition MORPH_BITS : Z := 3.
Definition INDEX_BITS : Z := 6.

(** The [dict] that [decode_face_code] returns, one field per key. *)
Record face_dict : Type := mkFaceDict {
  d_morphs : list Z;
  d_hair_index : Z;
  d_beard_index : Z;
  d_age : Z;
  d_skin_tone : Z
}.

(** [range(8)]. *)
Definition range8 : list Z := map Z.of_nat (seq 0 8).

(** [skin_map = {0: 0, 16: 1, 32: 2, 48: 3, 64: 4}]. *)
Definition skin_map : list (Z * Z) :=
  [(0, 0); (16, 1); (32, 2); (48, 3); (64, 4)].

(** [d.get(k, default)]. *)
Fixpoint dict_get (d : list (Z * Z)) (k default : Z) : Z :=
  match d with
  | [] => default
  | (k', v) :: r => if k =? k' then v else dict_get r k default
  end.

(** The body of [decode_face_code] after the integer has been parsed. *)
Definition decode_int (face_int : Z) : face_dict :=
  let morphs :=
    map (fun i => Z.land (Z.shiftr face_int (i * MORPH_BITS)) 7) range8 in
  let hair_index := Z.land (Z.shiftr face_int 24) 63 in
  let beard_index := Z.land (Z.shiftr face_int 30) 63 in
  let age := Z.land (Z.shiftr face_int 36) 63 in
  let skin_tone := Z.land (Z.shiftr face_int 42) 63 in
  let skin_tone := dict_get skin_map skin_tone 0 in
  mkFaceDict morphs hair_index beard_index age skin_tone.

(** [if hex_code.startswith('0x'): hex_code = hex_code[2:]]. *)
Definition strip_prefix (hex_code : string) : string :=
  if PyStr.startswith hex_code "0x" then PyStr.drop 2 hex_code else hex_code.

Definition decode_face_code (hex_code : string) : result face_dict :=
  let hex_code := strip_prefix hex_code in
  face_int <- PyStr.int16 hex_code ;;
  Ok (decode_int face_int).

(** [for i, morph in enumerate(params.morphs): face_int |= (morph & 0b111) << (i * 3)],
    started at index [i]. *)
Fixpoint encode_morphs (i : Z) (ms : list Z) (face_int : Z) : Z :=
  match ms with
  | [] => face_int
  | morph :: r =>
      encode_morphs (i + 1) r
        (Z.lor face_int (Z.shiftl (Z.land morph 7) (i * MORPH_BITS)))
  end.

Definition skin_values : list Z := [0; 16; 32; 48; 64].

(** [l[i]] on a Python list: a negative index counts from the end, an
    index outside [-len(l), len(l)) raises [IndexError]. *)
Definition list_index (l : list Z) (i : Z) : result Z :=
  let n := Z.of_nat (List.length l) in
  let j := if i <? 0 then i + n else i in
  if (0 <=? j) && (j <? n) then
    match nth_error l (Z.to_nat j) with
    | Some v => Ok v
    | None => Raise (IndexError "list index out of range")
    end
  else Raise (IndexError "list index out of range").

(** The accumulator of [encode_face_code] just before it is rendered. *)
Definition encode_int (params : FaceParameters) : result Z :=
  let face_int := 0 in
  let face_int := encode_morphs 0 (morphs params) face_int in
  let face_int := Z.lor face_int (Z.shiftl (Z.land (hair_index params) 63) 24) in
  let face_int := Z.lor face_int (Z.shiftl (Z.land (beard_index params) 63) 30) in
  let face_int := Z.lor face_int (Z.shiftl (Z.land (age params) 63) 36) in
  skin_value <- list_index skin_values (skin_tone params) ;;
  let face_int := Z.lor face_int (Z.shiftl (Z.land skin_value 63) 42) in
  Ok face_int.

Definition encode_face_code (params : FaceParameters) : result string :=
  face_int <- encode_int params ;;
  Ok ("0x" ++ PyStr.format_016x face_int)%string.

(** The field of [width] bits at bit [off] of an integer. *)
Definition bits_at (off width x : Z) : Z :=
  Z.land (Z.shiftr x off) (Z.ones width).

(** What encode ORs into the accumulator for a field: the value masked
    to [width] bits and moved to bit [off]. *)
Definition put (off width v : Z) : Z :=
  Z.shiftl (Z.land v (Z.ones width)) off.

End FaceCodeService.
Import FaceCodeService.

(** The example record of the specification, and the same face with the
    last skin tone of the palette. *)
Definition sample_params : FaceParameters :=
  mkFaceParameters [0; 1; 2; 3; 4; 5; 6; 7] 10 20 30 2.

Definition darkest_params : FaceParameters :=
  mkFaceParameters [0; 1; 2; 3; 4; 5; 6; 7] 10 20 30 4.

(** ** The validate operation ([app/api/api_v1/endpoints/face.py]) *)

Module FaceEndpoint.

Record validate_response : Type := mkValidate {
  valid_flag : bool;
  echoed_face_code : string;
  message : string
}.

Section Validate.

(** Python's [str(e)] on an exception object. *)
Variable str_exn : exn -> string.

(** [FaceParameters] built from the keyword arguments held in the dict
    that decode returns. *)
Definition FaceParameters_of_dict (d : face_dict) : result FaceParameters :=
  FaceParameters_init (d_morphs d) (d_hair_index d) (d_beard_index d)
    (d_age d) (d_skin_tone d).

Definition validate_face_code (face_code : string) : result validate_response :=
  try_except
    (params_dict <- decode_face_code face_code ;;
     _ <- FaceParameters_of_dict params_dict ;;
     Ok (mkValidate true face_code "Face code is valid"))
    is_Exception
    (fun e => Ok (mkValidate false face_code (str_exn e))).

End Validate.

End FaceEndpoint.

(** ** The profile parser ([app/services/profile_parser.py]) *)

Module ProfileParser.

(** The uploads directory as the service sees it: stored files by path. *)
Definition filesystem : Type := list (string * list Byte.byte).

Definition path_exists (fs : filesystem) (p : string) : bool :=
  existsb (fun entry => String.eqb (fst entry) p) fs.

(** A raw character record of the external enumeration library: the
    keys the parser reads, and the appearance bytes the face code is
    stored in. *)
Record char_data : Type := mkCharData {
  cd_name : string;
  cd_sex : Z;
  cd_skin : Z;
  cd_appearance : list Byte.byte
}.

Definition _extract_face_code (cd : char_data) : string :=
  "0x0000000000000000".

(** The loop of [parse_profile]: one [Character] per raw record, in
    order; the first record that [Character] rejects raises. *)
Fixpoint build_characters (char_list : list char_data) : result (list Character) :=
  match char_list with
  | [] => Ok []
  | cd :: r =>
      c <- Character_init (cd_name cd) (_extract_face_code cd) (cd_sex cd) (cd_skin cd) ;;
      cs <- build_characters r ;;
      Ok (c :: cs)
  end.

Section Parse.

(** [appearance.helpers.list_characters], the external library. *)
Variable list_characters : filesystem -> string -> result (list char_data).

Definition parse_profile (fs : filesystem) (profile_path : string)
  : result (list Character) :=
  char_list <- list_characters fs profile_path ;;
  build_characters char_list.

End Parse.

(** [update_character_face]: the result and the uploads directory after
    the call. *)
Definition update_character_face (fs : filesystem) (profile_path : string)
    (character_index : Z) (face_code : string) : bool * filesystem :=
  (false, fs).

End ProfileParser.

(** ** The update-face endpoint ([app/api/api_v1/endpoints/profiles.py]) *)

Module ProfilesEndpoint.
Import ProfileParser.

Section Update.

Variable str_exn : exn -> string.
(** [settings.UPLOADS_DIR] and pathlib's [/]. *)
Variable UPLOADS_DIR : string.
Variable joinpath : string -> string -> string.

Definition upload_path_of (upload_id : string) : string :=
  joinpath UPLOADS_DIR (upload_id ++ ".dat").

Definition update_character_face (fs : filesystem) (upload_id : string)
    (character_index : Z) (face_code : string) : result string * filesystem :=
  let upload_path := upload_path_of upload_id in
  if negb (path_exists fs upload_path) then
    (Raise (HTTPException 404 "Upload not found"), fs)
  else
    let '(success, fs') :=
      ProfileParser.update_character_face fs upload_path character_index face_code in
    (try_except
       (if success then Ok "Face updated successfully"
        else Raise (HTTPException 400 "Failed to update face"))
       is_Exception
       (fun e => Raise (HTTPException 400 (str_exn e))),
     fs').

End Update.

(** [HTTPException.__str__] of the web framework: the status code, a
    colon and the detail.  [other] prints the remaining exceptions. *)
Definition framework_str (other : exn -> string) (e : exn) : string :=
  match e with
  | HTTPException status detail =>
      DecimalString.NilZero.string_of_int (Z.to_int status) ++ ": " ++ detail
  | _ => other e
  end.

End ProfilesEndpoint.

(** ** The real-time channel ([app/api/api_v1/endpoints/websocket.py]) *)

Module WebSocket.

(** The values [json.loads] produces.  A JSON object is a [dict] with
    string keys, kept as an association list read at the first match. *)
#[warnings="-register-all"]
Inductive json : Type :=
| JNull
| JBool (b : bool)
| JInt (z : Z)
| JFloat (repr : string)
| JStr (s : string)
| JList (items : list json)
| JObj (members : list (string * json)).

Fixpoint assoc (key : string) (kvs : list (string * json)) : option json :=
  match kvs with
  | [] => None
  | (k, v) :: r => if String.eqb k key then Some v else assoc key r
  end.

(** [update.get(key)]: only a [dict] has the method. *)
Definition py_get (update : json) (key : string) : result (option json) :=
  match update with
  | JObj kvs => Ok (assoc key kvs)
  | _ => Raise (AttributeError "object has no attribute 'get'")
  end.

(** [update[key]] on a value already known to answer [get]. *)
Definition py_subscript (update : json) (key : string) : result json :=
  match update with
  | JObj kvs =>
      match assoc key kvs with
      | Some v => Ok v
      | None => Raise (KeyError key)
      end
  | _ => Raise (TypeError "object is not subscriptable")
  end.

(** [v == s] for a string literal [s] ([v] is [None] when [get] found
    nothing). *)
Definition eq_str (v : option json) (s : string) : bool :=
  match v with
  | Some (JStr t) => String.eqb t s
  | _ => false
  end.

(** The frames a connection receives from its client, in order;
    [Disconnect] makes [receive_text] raise [WebSocketDisconnect]. *)
Inductive event : Type :=
| Text (data : string)
| Disconnect.

(** How the handler stands once the events are used up: blocked in
    [receive_text], returned after the client left, or torn down by an
    exception that nothing caught. *)
Inductive outcome : Type :=
| Waiting
| Closed
| Fault (e : exn).

Section Channel.

Variable str_exn : exn -> string.
(** [json.loads] and [json.dumps]. *)
Variable json_loads : string -> result json.
Variable json_dumps : json -> string.
(** The validation library's reading of a JSON value as an [int]. *)
Variable coerce_int : json -> option Z.

Fixpoint coerce_ints (items : list json) : option (list Z) :=
  match items with
  | [] => Some []
  | v :: r =>
      match coerce_int v, coerce_ints r with
      | Some z, Some zs => Some (z :: zs)
      | _, _ => None
      end
  end.

Definition int_field (kvs : list (string * json)) (name : string)
    (ok : Z -> bool) : option Z :=
  match assoc name kvs with
  | Some v =>
      match coerce_int v with
      | Some z => if ok z then Some z else None
      | None => None
      end
  | None => None
  end.

Definition morphs_field (kvs : list (string * json)) : option (list Z) :=
  match assoc "morphs" kvs with
  | Some (JList items) =>
      match coerce_ints items with
      | Some zs => if morphs_ok zs then Some zs else None
      | None => None
      end
  | _ => None
  end.

Definition missing {A : Type} (name : string) (v : option A) : list string :=
  match v with
  | Some _ => []
  | None => [name]
  end.

(** [FaceParameters] built from the keyword arguments held in
    [parameters]: a value that is no mapping is a [TypeError]; every
    field is looked up and validated, unknown keys are ignored, and the
    failing fields are reported together in one [ValidationError]. *)
Definition FaceParameters_of_json (parameters : json) : result FaceParameters :=
  match parameters with
  | JObj kvs =>
      let m := morphs_field kvs in
      let h := int_field kvs "hair_index" index_ok in
      let b := int_field kvs "beard_index" index_ok in
      let a := int_field kvs "age" index_ok in
      let s := int_field kvs "skin_tone" skin_tone_ok in
      match m, h, b, a, s with
      | Some m', Some h', Some b', Some a', Some s' =>
          Ok (mkFaceParameters m' h' b' a' s')
      | _, _, _, _, _ =>
          Raise (ValidationError
                   (missing "morphs" m ++ missing "hair_index" h ++
                    missing "beard_index" b ++ missing "age" a ++
                    missing "skin_tone" s)%list)
      end
  | _ => Raise (TypeError "argument after ** must be a mapping")
  end.

(** [params.dict()]. *)
Definition params_dict (p : FaceParameters) : json :=
  JObj [("morphs", JList (map JInt (morphs p)));
        ("hair_index", JInt (hair_index p));
        ("beard_index", JInt (beard_index p));
        ("age", JInt (age p));
        ("skin_tone", JInt (skin_tone p))].

Definition response_frame (p : FaceParameters) (face_code : string) : string :=
  json_dumps (JObj [("type", JStr "face_update_response");
                    ("parameters", params_dict p);
                    ("face_code", JStr face_code)]).

Definition error_frame (e : exn) : string :=
  json_dumps (JObj [("type", JStr "error"); ("message", JStr (str_exn e))]).

Definition pong_frame : string :=
  json_dumps (JObj [("type", JStr "pong")]).

(** The body of the inner [try]: the frame it sends when nothing raises. *)
Definition face_update_body (update : json) : result string :=
  parameters <- py_subscript update "parameters" ;;
  params <- FaceParameters_of_json parameters ;;
  face_code <- encode_face_code params ;;
  Ok (response_frame params face_code).

(** One turn of the loop after [receive_text] returned [data]: the
    frames sent so far are extended, or an exception leaves the loop. *)
Definition handle_text (data : string) (sent : list string)
  : result unit * list string :=
  match json_loads data with
  | Raise e => (Raise e, sent)
  | Ok update =>
      match py_get update "type" with
      | Raise e => (Raise e, sent)
      | Ok ty =>
          if eq_str ty "face_update" then
            match face_update_body update with
            | Ok frame => (Ok tt, sent ++ [frame])%list
            | Raise e =>
                if is_ValueError e then (Ok tt, sent ++ [error_frame e])%list
                else (Raise e, sent)
            end
          else if eq_str ty "ping" then (Ok tt, sent ++ [pong_frame])%list
          else (Ok tt, sent)
      end
  end.

(** [websocket_face_updates] after [accept]: the loop over the incoming
    events, with the frames sent so far. *)
Fixpoint serve (events : list event) (sent : list string)
  : outcome * list string :=
  match events with
  | [] => (Waiting, sent)
  | Disconnect :: _ => (Closed, sent)
  | Text data :: rest =>
      match handle_text data sent with
      | (Ok _, sent') => serve rest sent'
      | (Raise WebSocketDisconnect, sent') => (Closed, sent')
      | (Raise e, sent') => (Fault e, sent')
      end
  end.

End Channel.

End WebSocket.

(** ** The decode and encode operations ([app/api/api_v1/endpoints/face.py])
    and [FaceCode.as_int] *)

Module FaceRoutes.
Import FaceEndpoint.

(** [FaceCode.as_int]: [int(self.hex_code, 16)], on the whole string,
    prefix included. *)
Definition as_int (hex_code : string) : result Z := PyStr.int16 hex_code.

Record DecodedFace : Type := mkDecodedFace {
  parameters : FaceParameters;
  decoded_from : string
}.

Section Routes.

Variable str_exn : exn -> string.

(** [decode_face_code], the route: its argument is the [hex_code] of a
    [FaceCode] the framework has already validated. *)
Definition decode_route (hex_code : string) : result DecodedFace :=
  try_except
    (params_dict <- decode_face_code hex_code ;;
     params <- FaceParameters_of_dict params_dict ;;
     Ok (mkDecodedFace params hex_code))
    is_ValueError
    (fun e => Raise (HTTPException 400 (str_exn e))).

(** [encode_face_parameters]: the [face_code] entry of the returned
    dict. *)
Definition encode_route (params : FaceParameters) : result string :=
  try_except
    (face_code <- encode_face_code params ;; Ok face_code)
    is_ValueError
    (fun e => Raise (HTTPException 400 (str_exn e))).

End Routes.

End FaceRoutes.

(** ** Upload and listing ([app/api/api_v1/endpoints/profiles.py]) *)

Module Uploads.
Import ProfileParser.

(** [s.endswith(suffix)]. *)
Definition endswith (s suffix : string) : bool :=
  (String.length suffix <=? String.length s)%nat
  && String.eqb (PyStr.drop (String.length s - String.length suffix) s) suffix.

(** [upload_path.unlink()] and writing a file opened with ["wb"]: the
    file is created or replaced.  Writing is taken to succeed. *)
Definition unlink (fs : filesystem) (p : string) : filesystem :=
  filter (fun entry => negb (String.eqb (fst entry) p)) fs.

Definition write_file (fs : filesystem) (p : string) (content : list Byte.byte)
  : filesystem :=
  (p, content) :: unlink fs p.

Fixpoint read_file (fs : filesystem) (p : string) : option (list Byte.byte) :=
  match fs with
  | [] => None
  | (q, content) :: r => if String.eqb q p then Some content else read_file r p
  end.

(** The [UploadFile] of the framework: [filename] and [size] may be
    [None]. *)
Record UploadFile : Type := mkUploadFile {
  filename : option string;
  size : option Z;
  content : list Byte.byte
}.

Record upload_response : Type := mkUploadResponse {
  upload_id : string;
  original_filename : string;
  character_count : Z;
  characters : list Character
}.

(** What a call leaves behind: its result, the stored files, and
    whether it closed the incoming stream. *)
Record outcome (A : Type) : Type := mkOutcome {
  returned : result A;
  files_after : filesystem;
  stream_closed : bool
}.
Arguments mkOutcome {A} returned files_after stream_closed.
Arguments returned {A} o.
Arguments files_after {A} o.
Arguments stream_closed {A} o.

Definition str_of_Z (z : Z) : string :=
  DecimalString.NilZero.string_of_int (Z.to_int z).

(** [MAX_UPLOAD_SIZE: int = 10 * 1024 * 1024] of [app/core/config.py]. *)
Definition default_MAX_UPLOAD_SIZE : Z := 10 * 1024 * 1024.

Section Endpoints.

Variable str_exn : exn -> string.
Variable list_characters : filesystem -> string -> result (list char_data).
Variable UPLOADS_DIR : string.
Variable joinpath : string -> string -> string.
Variable MAX_UPLOAD_SIZE : Z.

(** [upload_profile]; [fresh_id] is the value of [str(uuid4())]. *)
Definition upload_profile (fs : filesystem) (file : UploadFile)
    (fresh_id : string) : outcome upload_response :=
  match filename file with
  | None =>
      mkOutcome (Raise (AttributeError "'NoneType' object has no attribute 'endswith'"))
        fs false
  | Some fname =>
      if negb (endswith fname ".dat") then
        mkOutcome (Raise (HTTPException 400 "Only .dat files are allowed")) fs false
      else
        match size file with
        | None =>
            mkOutcome (Raise (TypeError "'>' not supported between instances of 'NoneType' and 'int'"))
              fs false
        | Some sz =>
            if sz >? MAX_UPLOAD_SIZE then
              mkOutcome
                (Raise (HTTPException 400
                          ("File too large. Max size: " ++ str_of_Z MAX_UPLOAD_SIZE
                           ++ " bytes")))
                fs false
            else
              let upload_path := ProfilesEndpoint.upload_path_of UPLOADS_DIR joinpath fresh_id in
              let fs1 := write_file fs upload_path (content file) in
              match parse_profile list_characters fs1 upload_path with
              | Ok chars =>
                  mkOutcome
                    (Ok (mkUploadResponse fresh_id fname
                           (Z.of_nat (List.length chars)) chars))
                    fs1 true
              | Raise e =>
                  let fs2 :=
                    if path_exists fs1 upload_path then unlink fs1 upload_path
                    else fs1 in
                  mkOutcome
                    (Raise (HTTPException 400
                              ("Failed to parse profile: " ++ str_exn e)))
                    fs2 true
              end
        end
  end.

(** [get_characters]: it only reads. *)
Definition get_characters (fs : filesystem) (upload_id : string)
  : result (list Character) :=
  let upload_path := ProfilesEndpoint.upload_path_of UPLOADS_DIR joinpath upload_id in
  if negb (path_exists fs upload_path) then
    Raise (HTTPException 404 "Upload not found")
  else
    try_except
      (parse_profile list_characters fs upload_path)
      is_Exception
      (fun e => Raise (HTTPException 400 ("Failed to parse profile: " ++ str_exn e))).

End Endpoints.

End Uploads.

(** ** Auxiliary definitions for the statements and their instances *)

(** The [Character] that carries the fixed face code and the name, sex
    and skin of a raw record. *)
Definition sentinel_character (cd : ProfileParser.char_data) : Character :=
  mkCharacter (ProfileParser.cd_name cd) "0x0000000000000000"
    (ProfileParser.cd_sex cd) (ProfileParser.cd_skin cd).

Module Samples.
Import WebSocket.

Definition two_raw_records : list ProfileParser.char_data :=
  [ProfileParser.mkCharData "Hero" 0 3 [Byte.x01; Byte.xff];
   ProfileParser.mkCharData "Lady" 1 0 []].

Definition slash_join (dir file : string) : string :=
  (dir ++ "/" ++ file)%string.

Definition one_upload : ProfileParser.filesystem :=
  [("/data/uploads/abc.dat"%string, [Byte.x00])].

Definition dquote : ascii := ascii_of_nat 34.

(** A JSON string literal, for text that needs no escaping. *)
Definition quoted (s : string) : string :=
  String dquote (s ++ String dquote EmptyString)%string.

(** The text of a [face_update] message without parameters, and of one
    whose parameters are an empty object. *)
Definition bare_face_update : string :=
  ("{" ++ quoted "type" ++ ": " ++ quoted "face_update" ++ "}")%string.

Definition empty_face_update : string :=
  ("{" ++ quoted "type" ++ ": " ++ quoted "face_update" ++ ", "
   ++ quoted "parameters" ++ ": {}}")%string.

(** A reader that knows these two texts. *)
Definition sample_loads (data : string) : result json :=
  if String.eqb data bare_face_update then
    Ok (JObj [("type"%string, JStr "face_update")])
  else if String.eqb data empty_face_update then
    Ok (JObj [("type"%string, JStr "face_update"); ("parameters"%string, JObj [])])
  else Raise (JSONDecodeError "Expecting value").

(** A writer for values whose strings need no escaping. *)
Fixpoint sample_dumps (v : json) : string :=
  match v with
  | JNull => "null"
  | JBool true => "true"
  | JBool false => "false"
  | JInt z => DecimalString.NilZero.string_of_int (Z.to_int z)
  | JFloat repr => repr
  | JStr s => quoted s
  | JList items =>
      "[" ++ String.concat ", " (map sample_dumps items) ++ "]"
  | JObj members =>
      "{" ++ String.concat ", "
               (map (fun kv => quoted (fst kv) ++ ": " ++ sample_dumps (snd kv))
                  members) ++ "}"
  end%string.

Definition sample_coerce_int (v : json) : option Z :=
  match v with
  | JInt z => Some z
  | _ => None
  end.

End Samples.
Import Samples.

Module UploadSamples.
Import ProfileParser Uploads WebSocket.

(** An enumeration that finds the two sample records in any stored file
    that is not empty. *)
Definition sample_list_characters (fs : filesystem) (path : string)
  : result (list char_data) :=
  match read_file fs path with
  | Some [] => Raise (OtherException "empty file")
  | Some _ => Ok two_raw_records
  | None => Raise (OtherException "no such file")
  end.

Definition good_upload : UploadFile :=
  mkUploadFile (Some "profiles.dat"%string) (Some 2) [Byte.x01; Byte.x02].

Definition empty_upload : UploadFile :=
  mkUploadFile (Some "profiles.dat"%string) (Some 0) [].

Definition text_upload : UploadFile :=
  mkUploadFile (Some "notes.txt"%string) (Some 2) [Byte.x01; Byte.x02].

Definition ping_text : string :=
  ("{" ++ quoted "type" ++ ": " ++ quoted "ping" ++ "}")%string.

Definition other_text : string :=
  ("{" ++ quoted "type" ++ ": " ++ quoted "unknown" ++ "}")%string.

Definition list_text : string := "[]".

Definition sample_update_text : string := "sample face_update".

(** A reader that also knows a ping, a message of another type, a JSON
    list, and a [face_update] that carries [sample_params]. *)
Definition more_loads (data : string) : result json :=
  if String.eqb data ping_text then Ok (JObj [("type"%string, JStr "ping")])
  else if String.eqb data other_text then Ok (JObj [("type"%string, JStr "unknown")])
  else if String.eqb data list_text then Ok (JList [])
  else if String.eqb data sample_update_text then
    Ok (JObj [("type"%string, JStr "face_update");
              ("parameters"%string,
               JObj [("morphs"%string, JList (map JInt (morphs sample_params)));
                     ("hair_index"%string, JInt (hair_index sample_params));
                     ("beard_index"%string, JInt (beard_index sample_params));
                     ("age"%string, JInt (age sample_params));
                     ("skin_tone"%string, JInt (skin_tone sample_params))])])
  else sample_loads data.

End UploadSamples.
Import UploadSamples.

(** * Properties *)

(** ** Hexadecimal rendering and parsing *)

Section HexStrings.
Import PyStr.

Ltac by_ascii_cases c :=
  destruct c as [[] [] [] [] [] [] [] []]; vm_compute; congruence.

Lemma hex_value_not_space (c : ascii) (d : Z) :
  hex_value c = Some d -> isspace c = false.
Proof. by_ascii_cases c. Qed.

Lemma hex_value_not_sign (c : ascii) (d : Z) :
  hex_value c = Some d -> Ascii.eqb c "+" = false /\ Ascii.eqb c "-" = false.
Proof. intros H; split; revert H; by_ascii_cases c. Qed.

Lemma hex_value_not_x (c : ascii) (d : Z) :
  hex_value c = Some d -> Ascii.eqb c "x" = false /\ Ascii.eqb c "X" = false.
Proof. intros H; split; revert H; by_ascii_cases c. Qed.

Lemma hex_value_not_underscore (c : ascii) (d : Z) :
  hex_value c = Some d -> Ascii.eqb c "_" = false.
Proof. by_ascii_cases c. Qed.

Lemma lower_hex_is_hex (c : ascii) :
  is_lower_hex c = true -> exists d, hex_value c = Some d.
Proof.
  destruct c as [[] [] [] [] [] [] [] []]; vm_compute; intros H;
    try discriminate H; eexists; reflexivity.
Qed.

Lemma hex_digit_value (d : Z) :
  0 <= d < 16 -> hex_value (hex_digit d) = Some d.
Proof.
  intros H.
  destruct d as [|p|p]; [reflexivity| |lia].
  do 4 (destruct p as [p|p|]; try lia; try reflexivity).
Qed.

Lemma hex_digit_lower (d : Z) : is_lower_hex (hex_digit d) = true.
Proof.
  destruct d as [|p|p]; try reflexivity.
  do 4 (destruct p as [p|p|]; try reflexivity).
Qed.

Lemma all_lower_hex_app (s t : string) :
  all_lower_hex (s ++ t) = all_lower_hex s && all_lower_hex t.
Proof.
  induction s as [|c s IH]; simpl; [reflexivity|].
  rewrite IH, andb_assoc; reflexivity.
Qed.

Lemma all_lower_all_hex (s : string) :
  all_lower_hex s = true -> all_hex s = true.
Proof.
  induction s as [|c s IH]; simpl; [reflexivity|].
  intros H; apply andb_true_iff in H as [Hc Hs].
  destruct (lower_hex_is_hex c Hc) as [d ->]; auto.
Qed.

Lemma repeat_char_length (c : ascii) (n : nat) :
  String.length (repeat_char c n) = n.
Proof. induction n; simpl; congruence. Qed.

Lemma repeat_zero_lower (n : nat) : all_lower_hex (repeat_char "0" n) = true.
Proof. induction n; simpl; auto. Qed.

Lemma string_app_length (s t : string) :
  String.length (s ++ t) = (String.length s + String.length t)%nat.
Proof. induction s; simpl; congruence. Qed.

Lemma hex_fold_zeros (n : nat) (s : string) :
  hex_fold 0 (repeat_char "0" n ++ s) = hex_fold 0 s.
Proof. induction n; simpl; auto. Qed.

(** The digits written for [z] read back as [z]. *)
Lemma hex_fold_digits (fuel : nat) :
  forall z acc, 0 <= z < 16 ^ Z.of_nat fuel ->
    hex_fold 0 (hex_digits_aux fuel z acc) = hex_fold z acc.
Proof.
  induction fuel as [|f IH]; intros z acc Hz.
  - simpl in *. replace z with 0 by lia. reflexivity.
  - cbn [hex_digits_aux].
    assert (Hm : 0 <= z mod 16 < 16) by (apply Z.mod_pos_bound; lia).
    destruct (Z.ltb_spec z 16) as [Hlt|Hge].
    + cbn [hex_fold]. rewrite hex_digit_value by exact Hm.
      rewrite Z.mod_small by lia. reflexivity.
    + rewrite IH.
      * cbn [hex_fold]. rewrite hex_digit_value by exact Hm.
        f_equal. pose proof (Z.div_mod z 16). lia.
      * rewrite Nat2Z.inj_succ, Z.pow_succ_r in Hz by lia.
        split; [apply Z.div_pos; lia|].
        apply Z.div_lt_upper_bound; lia.
Qed.

Lemma hex_digits_lower (fuel : nat) :
  forall z acc, all_lower_hex acc = true ->
    all_lower_hex (hex_digits_aux fuel z acc) = true.
Proof.
  induction fuel as [|f IH]; intros z acc Hacc; cbn [hex_digits_aux]; auto.
  assert (H : all_lower_hex (String (hex_digit (z mod 16)) acc) = true)
    by (simpl; rewrite hex_digit_lower; exact Hacc).
  destruct (z <? 16); auto.
Qed.

(** A number below [16 ^ n] is written with at most [n] digits. *)
Lemma hex_digits_length (fuel : nat) :
  forall (n : nat) z acc, (1 <= n)%nat -> 0 <= z < 16 ^ Z.of_nat n ->
    (String.length (hex_digits_aux fuel z acc) <= n + String.length acc)%nat.
Proof.
  induction fuel as [|f IH]; intros n z acc Hn Hz; cbn [hex_digits_aux].
  - lia.
  - destruct (Z.ltb_spec z 16) as [Hlt|Hge].
    + simpl. lia.
    + destruct n as [|[|n]]; [lia| simpl in Hz; lia |].
      specialize (IH (S n) (z / 16) (String (hex_digit (z mod 16)) acc)).
      simpl String.length in IH.
      assert (0 <= z / 16 < 16 ^ Z.of_nat (S n)).
      { rewrite (Nat2Z.inj_succ (S n)), Z.pow_succ_r in Hz by lia.
        split; [apply Z.div_pos; lia|].
        apply Z.div_lt_upper_bound; lia. }
      specialize (IH ltac:(lia) H). lia.
Qed.

Lemma to_hex_fuel (z : Z) :
  0 <= z -> 0 <= z < 16 ^ Z.of_nat (S (Z.to_nat (Z.log2 z))).
Proof.
  intros Hz. split; [exact Hz|].
  rewrite Nat2Z.inj_succ, Z2Nat.id by apply Z.log2_nonneg.
  destruct (Z.eq_dec z 0) as [->|Hnz].
  - simpl. lia.
  - pose proof (Z.log2_spec z ltac:(lia)) as [_ Hlt].
    eapply Z.lt_le_trans; [exact Hlt|].
    change 16 with (2 ^ 4). rewrite <- Z.pow_mul_r by (pose proof (Z.log2_nonneg z); lia).
    apply Z.pow_le_mono_r; pose proof (Z.log2_nonneg z); lia.
Qed.

Lemma to_hex_value (z : Z) : 0 <= z -> hex_fold 0 (to_hex z) = z.
Proof.
  intros Hz. unfold to_hex.
  rewrite hex_fold_digits by (apply to_hex_fuel; exact Hz).
  reflexivity.
Qed.

(** [f"{z:016x}"] of a number below [2 ^ 64]: sixteen lower-case
    digits whose value is [z]. *)
Lemma format_016x_spec (z : Z) :
  0 <= z < 2 ^ 64 ->
  String.length (format_016x z) = 16%nat /\
  all_lower_hex (format_016x z) = true /\
  hex_fold 0 (format_016x z) = z.
Proof.
  intros Hz. unfold format_016x.
  destruct (Z.ltb_spec z 0) as [Hneg|_]; [lia|].
  unfold zfill.
  assert (Hlen : (String.length (to_hex z) <= 16)%nat).
  { unfold to_hex.
    pose proof (hex_digits_length (S (Z.to_nat (Z.log2 z))) 16 z EmptyString) as H.
    simpl String.length in H. rewrite Nat.add_0_r in H.
    apply H; [lia|]. change (16 ^ Z.of_nat 16) with (2 ^ 64). exact Hz. }
  repeat split.
  - rewrite string_app_length, repeat_char_length. lia.
  - rewrite all_lower_hex_app, repeat_zero_lower. simpl.
    unfold to_hex. apply hex_digits_lower. reflexivity.
  - rewrite hex_fold_zeros. apply to_hex_value. lia.
Qed.

Lemma scan_all_hex (s : string) :
  forall acc n, all_hex s = true ->
    scan_digits false acc n s
    = Some (hex_fold acc s, (n + String.length s)%nat, EmptyString).
Proof.
  induction s as [|c s IH]; intros acc n H; simpl in *.
  - rewrite Nat.add_0_r. reflexivity.
  - destruct (hex_value c) as [d|] eqn:Hc; [|discriminate].
    rewrite (hex_value_not_underscore c d Hc).
    rewrite IH by exact H. rewrite Nat.add_succ_r. reflexivity.
Qed.

(** [int(s, 16)] on a non-empty run of hexadecimal digits is its
    unsigned base-16 value. *)
Lemma parse_int16_hex_digits (s : string) :
  is_hex_digits s = true -> parse_int16 s = Some (hex_fold 0 s).
Proof.
  destruct s as [|c s]; [discriminate|]. intros H.
  assert (Hall : all_hex (String c s) = true) by exact H.
  simpl in H. destruct (hex_value c) as [d|] eqn:Hc; [|discriminate].
  pose proof (hex_value_not_space c d Hc) as Hsp.
  pose proof (hex_value_not_sign c d Hc) as [Hplus Hminus].
  pose proof (hex_value_not_underscore c d Hc) as Hus.
  unfold parse_int16. cbn [skip_space]. rewrite Hsp.
  cbn [strip_sign]. rewrite Hplus, Hminus.
  assert (Hpre : strip_base_prefix (String c s) = String c s).
  { destruct s as [|c1 s1]; [reflexivity|]. cbn [strip_base_prefix].
    simpl in H. destruct (hex_value c1) as [d1|] eqn:Hc1; [|discriminate].
    destruct (hex_value_not_x c1 d1 Hc1) as [-> ->].
    rewrite andb_false_r. reflexivity. }
  rewrite Hpre. cbn [starts_with_underscore]. rewrite Hus.
  rewrite scan_all_hex by exact Hall.
  cbn [String.length Nat.add skip_space]. rewrite Z.mul_1_l. reflexivity.
Qed.

End HexStrings.

(** ** Bit fields *)

Section BitFields.

Lemma testbit_put (off w v n : Z) :
  0 <= off -> 0 <= w ->
  Z.testbit (put off w v) n
  = (off <=? n) && (n <? off + w) && Z.testbit v (n - off).
Proof.
  intros Hoff Hw. unfold put.
  destruct (Z.leb_spec off n) as [Hle|Hlt].
  - rewrite Z.shiftl_spec by lia. rewrite Z.land_spec.
    rewrite Z.testbit_ones_nonneg by lia.
    destruct (Z.ltb_spec (n - off) w), (Z.ltb_spec n (off + w));
      try lia; simpl; auto using andb_true_r, andb_false_r.
  - simpl. destruct (Z.lt_ge_cases n 0).
    + apply Z.testbit_neg_r; lia.
    + apply Z.shiftl_spec_low; lia.
Qed.

Lemma testbit_bits_at (off w x n : Z) :
  0 <= off -> 0 <= w ->
  Z.testbit (bits_at off w x) n
  = (0 <=? n) && (n <? w) && Z.testbit x (n + off).
Proof.
  intros Hoff Hw. unfold bits_at.
  destruct (Z.leb_spec 0 n) as [Hle|Hlt].
  - rewrite Z.land_spec, Z.shiftr_spec, Z.testbit_ones_nonneg by lia.
    simpl. apply andb_comm.
  - simpl. apply Z.testbit_neg_r; lia.
Qed.

Lemma bits_at_lor (off w a b : Z) :
  bits_at off w (Z.lor a b) = Z.lor (bits_at off w a) (bits_at off w b).
Proof.
  unfold bits_at. rewrite Z.shiftr_lor, Z.land_lor_distr_l. reflexivity.
Qed.

Lemma bits_at_0 (off w : Z) : bits_at off w 0 = 0.
Proof. unfold bits_at. rewrite Z.shiftr_0_l. apply Z.land_0_l. Qed.

(** Reading a field back where it was put gives the masked value. *)
Lemma bits_at_put_same (off w v : Z) :
  0 <= off -> 0 <= w ->
  bits_at off w (put off w v) = Z.land v (Z.ones w).
Proof.
  intros Hoff Hw. apply Z.bits_inj'. intros n Hn.
  rewrite testbit_bits_at, testbit_put by lia.
  rewrite Z.land_spec, Z.testbit_ones_nonneg by lia.
  replace (n + off - off) with n by lia.
  destruct (Z.leb_spec 0 n), (Z.leb_spec off (n + off)),
    (Z.ltb_spec n w), (Z.ltb_spec (n + off) (off + w)); try lia; simpl;
    auto using andb_true_r, andb_false_r.
Qed.

(** Reading a field that does not overlap the one that was put gives 0. *)
Lemma bits_at_put_other (off w off' w' v : Z) :
  0 <= off -> 0 <= w -> 0 <= off' -> 0 <= w' ->
  off' + w' <= off \/ off + w <= off' ->
  bits_at off w (put off' w' v) = 0.
Proof.
  intros Hoff Hw Hoff' Hw' Hdis. apply Z.bits_inj'. intros n Hn.
  rewrite testbit_bits_at, testbit_put by lia.
  rewrite Z.bits_0.
  destruct (Z.leb_spec 0 n), (Z.ltb_spec n w),
    (Z.leb_spec off' (n + off)), (Z.ltb_spec (n + off) (off' + w'));
    simpl; auto; lia.
Qed.

Lemma land_ones_small (w v : Z) :
  0 <= w -> 0 <= v < 2 ^ w -> Z.land v (Z.ones w) = v.
Proof.
  intros Hw Hv. rewrite Z.land_ones by exact Hw. apply Z.mod_small. exact Hv.
Qed.

Lemma lor_bound (n a b : Z) :
  0 <= n -> 0 <= a < 2 ^ n -> 0 <= b < 2 ^ n -> 0 <= Z.lor a b < 2 ^ n.
Proof.
  intros Hn Ha Hb.
  rewrite <- (land_ones_small n a Hn Ha), <- (land_ones_small n b Hn Hb).
  rewrite <- Z.land_lor_distr_l, Z.land_ones by exact Hn.
  apply Z.mod_pos_bound. apply Z.pow_pos_nonneg; lia.
Qed.

Lemma put_bound (off w v n : Z) :
  0 <= off -> 0 <= w -> off + w <= n -> 0 <= put off w v < 2 ^ n.
Proof.
  intros Hoff Hw Hn. unfold put.
  rewrite Z.land_ones, Z.shiftl_mul_pow2 by lia.
  pose proof (Z.mod_pos_bound v (2 ^ w) ltac:(apply Z.pow_pos_nonneg; lia)) as Hm.
  assert (Hp : 0 < 2 ^ off) by (apply Z.pow_pos_nonneg; lia).
  split; [nia|].
  apply Z.lt_le_trans with (2 ^ w * 2 ^ off); [nia|].
  rewrite <- Z.pow_add_r by lia. apply Z.pow_le_mono_r; lia.
Qed.

End BitFields.

(** ** The codec on valid records *)

Section CodecLemmas.

Lemma Ok_inj {A : Type} (a b : A) : Ok a = Ok b -> a = b.
Proof. intros H. inversion H. reflexivity. Qed.

(** What the validating constructor accepts. *)
Lemma valid_fields (p : FaceParameters) :
  valid p ->
  morphs_ok (morphs p) = true /\ index_ok (hair_index p) = true /\
  index_ok (beard_index p) = true /\ index_ok (age p) = true /\
  skin_tone_ok (skin_tone p) = true.
Proof.
  unfold valid, FaceParameters_init, FaceParameters_errors, field_error.
  cbn [morphs hair_index beard_index age skin_tone].
  destruct (morphs_ok (morphs p)), (index_ok (hair_index p)),
    (index_ok (beard_index p)), (index_ok (age p)),
    (skin_tone_ok (skin_tone p)); simpl; intros H;
    try discriminate H; repeat split.
Qed.

Lemma fields_valid (m : list Z) (h b a s : Z) :
  morphs_ok m = true -> index_ok h = true -> index_ok b = true ->
  index_ok a = true -> skin_tone_ok s = true ->
  FaceParameters_init m h b a s = Ok (mkFaceParameters m h b a s).
Proof.
  intros Hm Hh Hb Ha Hs.
  unfold FaceParameters_init, FaceParameters_errors, field_error.
  cbn [morphs hair_index beard_index age skin_tone].
  rewrite Hm, Hh, Hb, Ha, Hs. reflexivity.
Qed.

Lemma in_range_spec (lo hi v : Z) :
  in_range lo hi v = true <-> lo <= v <= hi.
Proof. unfold in_range. rewrite andb_true_iff, !Z.leb_le. tauto. Qed.

Lemma morphs_ok_eight (ms : list Z) :
  morphs_ok ms = true ->
  exists m0 m1 m2 m3 m4 m5 m6 m7,
    ms = [m0; m1; m2; m3; m4; m5; m6; m7] /\
    Forall (fun m => 0 <= m <= 7) ms.
Proof.
  unfold morphs_ok. rewrite andb_true_iff, Nat.eqb_eq.
  intros [Hlen Hall].
  assert (HF : Forall (fun m => 0 <= m <= 7) ms).
  { apply Forall_forall. intros m Hin. apply in_range_spec.
    rewrite forallb_forall in Hall. auto. }
  do 8 (destruct ms as [|?m ms]; [discriminate Hlen|]).
  destruct ms; [|discriminate Hlen].
  do 8 eexists. split; [reflexivity|exact HF].
Qed.

Lemma skin_tone_ok_spec (s : Z) : skin_tone_ok s = true <-> 0 <= s <= 4.
Proof.
  unfold skin_tone_ok. rewrite andb_true_iff, in_range_spec. split.
  - tauto.
  - intros H. split; [exact H|].
    assert (Hc : s = 0 \/ s = 1 \/ s = 2 \/ s = 3 \/ s = 4) by lia.
    destruct Hc as [->|[->|[->|[->| ->]]]]; reflexivity.
Qed.

(** The accumulator for a record with eight morphs. *)
Lemma encode_int_eight (m0 m1 m2 m3 m4 m5 m6 m7 h b a s sv : Z) :
  list_index skin_values s = Ok sv ->
  encode_int (mkFaceParameters [m0; m1; m2; m3; m4; m5; m6; m7] h b a s)
  = Ok (Z.lor (Z.lor (Z.lor (Z.lor
         (Z.lor (Z.lor (Z.lor (Z.lor (Z.lor (Z.lor (Z.lor (Z.lor 0
            (put 0 3 m0)) (put 3 3 m1)) (put 6 3 m2)) (put 9 3 m3))
            (put 12 3 m4)) (put 15 3 m5)) (put 18 3 m6)) (put 21 3 m7))
         (put 24 6 h)) (put 30 6 b)) (put 36 6 a)) (put 42 6 sv)).
Proof.
  intros Hs. unfold encode_int. cbn [skin_tone]. rewrite Hs. reflexivity.
Qed.

Lemma decode_int_fields (x : Z) :
  decode_int x
  = mkFaceDict
      [bits_at 0 3 x; bits_at 3 3 x; bits_at 6 3 x; bits_at 9 3 x;
       bits_at 12 3 x; bits_at 15 3 x; bits_at 18 3 x; bits_at 21 3 x]
      (bits_at 24 6 x) (bits_at 30 6 x) (bits_at 36 6 x)
      (dict_get skin_map (bits_at 42 6 x) 0).
Proof. reflexivity. Qed.

Ltac read_fields :=
  rewrite ?bits_at_lor, ?bits_at_0;
  repeat match goal with
    | |- context [bits_at ?off ?w (put ?off ?w ?v)] =>
        rewrite (bits_at_put_same off w v) by lia
    | |- context [bits_at ?off ?w (put ?off' ?w' ?v)] =>
        rewrite (bits_at_put_other off w off' w' v) by lia
    end;
  rewrite ?Z.lor_0_l, ?Z.lor_0_r.

(** Decoding the accumulator of a record with in-range fields gives the
    fields back; the skin field comes back as the palette code masked
    to six bits and looked up in the inverse map. *)
Lemma decode_encode_int (m0 m1 m2 m3 m4 m5 m6 m7 h b a s sv x : Z) :
  Forall (fun m => 0 <= m <= 7) [m0; m1; m2; m3; m4; m5; m6; m7] ->
  0 <= h <= 63 -> 0 <= b <= 63 -> 0 <= a <= 63 ->
  list_index skin_values s = Ok sv ->
  encode_int (mkFaceParameters [m0; m1; m2; m3; m4; m5; m6; m7] h b a s) = Ok x ->
  decode_int x
  = mkFaceDict [m0; m1; m2; m3; m4; m5; m6; m7] h b a
      (dict_get skin_map (Z.land sv 63) 0)
  /\ bits_at 42 6 x = Z.land sv 63
  /\ 0 <= x < 2 ^ 48.
Proof.
  intros Hm Hh Hb Ha Hs Hx.
  rewrite (encode_int_eight _ _ _ _ _ _ _ _ _ _ _ _ _ Hs) in Hx.
  apply Ok_inj in Hx. subst x.
  repeat match goal with
    | H : Forall _ (_ :: _) |- _ => inversion H; subst; clear H
    end.
  split; [|split].
  - rewrite decode_int_fields. read_fields.
    change (Z.ones 6) with 63.
    rewrite !(land_ones_small 3) by (change (2 ^ 3) with 8; lia).
    change 63 with (Z.ones 6) at 1 2 3.
    rewrite !(land_ones_small 6) by (change (2 ^ 6) with 64; lia).
    reflexivity.
  - read_fields. reflexivity.
  - repeat (apply lor_bound; [lia| |apply put_bound; lia]).
    change (2 ^ 48) with 281474976710656. lia.
Qed.

End CodecLemmas.

(** ** Encoding followed by decoding *)

Section RoundTrip.
Import PyStr.

Lemma all_hex_run (s : string) : all_hex s = true -> hex_run_to_end s = true.
Proof.
  induction s as [|c s IH]; simpl; [reflexivity|].
  destruct (hex_value c); [exact IH|discriminate].
Qed.

(** A string of sixteen lower-case digits after [0x] has the shape the
    [FaceCode] pattern asks for. *)
Lemma pattern_of_digits (digits : string) :
  String.length digits = 16%nat -> all_lower_hex digits = true ->
  FaceCode_pattern ("0x" ++ digits) = true.
Proof.
  intros Hlen Hlow. destruct digits as [|c r]; [discriminate Hlen|].
  apply all_lower_all_hex in Hlow. simpl in Hlow.
  change ("0x" ++ String c r)%string with (String "0" (String "x" (String c r))).
  cbn [FaceCode_pattern].
  destruct (hex_value c); [|discriminate]. apply all_hex_run. exact Hlow.
Qed.

Lemma strip_prefix_0x (r : string) : strip_prefix ("0x" ++ r) = r.
Proof. destruct r; reflexivity. Qed.

Lemma strip_prefix_none (s : string) :
  startswith s "0x" = false -> strip_prefix s = s.
Proof. unfold strip_prefix. intros ->. reflexivity. Qed.

(** Decoding the rendering of a number below [2 ^ 64] decodes the number. *)
Lemma decode_formatted (x : Z) :
  0 <= x < 2 ^ 64 ->
  decode_face_code ("0x" ++ format_016x x) = Ok (decode_int x).
Proof.
  intros Hx. destruct (format_016x_spec x Hx) as (Hlen & Hlow & Hval).
  unfold decode_face_code.
  rewrite strip_prefix_0x.
  unfold int16. rewrite parse_int16_hex_digits.
  - rewrite Hval. reflexivity.
  - destruct (format_016x x) as [|c r] eqn:E; [discriminate Hlen|].
    apply all_lower_all_hex in Hlow. exact Hlow.
Qed.

Lemma skin_lookup (s : Z) :
  0 <= s <= 4 ->
  exists sv, list_index skin_values s = Ok sv /\
    Z.land sv 63 = (if s =? 4 then 0 else 16 * s) /\
    dict_get skin_map (Z.land sv 63) 0 = (if s =? 4 then 0 else s).
Proof.
  intros H.
  assert (Hc : s = 0 \/ s = 1 \/ s = 2 \/ s = 3 \/ s = 4) by lia.
  destruct Hc as [->|[->|[->|[->| ->]]]]; eexists; repeat split.
Qed.

(** What encoding and then decoding does to a valid record: every field
    comes back, except that skin tone 4 comes back as 0, because its
    palette code 64 does not fit the six-bit mask. *)
Theorem encode_then_decode (p : FaceParameters) :
  valid p ->
  exists x,
    encode_int p = Ok x /\ 0 <= x < 2 ^ 48 /\
    encode_face_code p = Ok ("0x" ++ format_016x x)%string /\
    decode_face_code ("0x" ++ format_016x x) = Ok (decode_int x) /\
    decode_int x
    = mkFaceDict (morphs p) (hair_index p) (beard_index p) (age p)
        (if skin_tone p =? 4 then 0 else skin_tone p) /\
    bits_at 42 6 x = (if skin_tone p =? 4 then 0 else 16 * skin_tone p).
Proof.
  intros Hv. destruct (valid_fields p Hv) as (Hm & Hh & Hb & Ha & Hs).
  destruct p as [ms h b a s]. cbn [morphs hair_index beard_index age skin_tone] in *.
  destruct (morphs_ok_eight ms Hm) as (m0 & m1 & m2 & m3 & m4 & m5 & m6 & m7 & -> & HF).
  apply in_range_spec in Hh, Hb, Ha. apply skin_tone_ok_spec in Hs.
  destruct (skin_lookup s Hs) as (sv & Hsv & Hland & Hget).
  destruct (encode_int (mkFaceParameters [m0; m1; m2; m3; m4; m5; m6; m7] h b a s))
    as [x|e] eqn:Hx.
  2:{ rewrite (encode_int_eight _ _ _ _ _ _ _ _ _ _ _ _ _ Hsv) in Hx. discriminate Hx. }
  destruct (decode_encode_int _ _ _ _ _ _ _ _ _ _ _ _ _ _ HF Hh Hb Ha Hsv Hx)
    as (Hdec & Hbits & Hbound).
  exists x.
  split; [reflexivity|]. split; [exact Hbound|].
  split; [unfold encode_face_code; rewrite Hx; reflexivity|].
  split; [|split].
  - apply decode_formatted.
    assert (2 ^ 48 <= 2 ^ 64) by (apply Z.pow_le_mono_r; lia). lia.
  - rewrite Hdec, Hget. reflexivity.
  - rewrite Hbits, Hland. reflexivity.
Qed.

(** Round trip on the records whose skin tone is not 4. *)
Corollary round_trip_below_4 (p : FaceParameters) :
  valid p -> skin_tone p <> 4 ->
  exists code,
    encode_face_code p = Ok code /\
    decode_face_code code
    = Ok (mkFaceDict (morphs p) (hair_index p) (beard_index p) (age p) (skin_tone p)).
Proof.
  intros Hv Hs. destruct (encode_then_decode p Hv) as (x & _ & _ & He & Hd & Hf & _).
  eexists. split; [exact He|]. rewrite Hd, Hf.
  destruct (Z.eqb_spec (skin_tone p) 4); [contradiction|reflexivity].
Qed.

(** A six-bit field never holds 64. *)
Lemma bits_at_range (off w x : Z) :
  0 <= w -> 0 <= bits_at off w x < 2 ^ w.
Proof.
  intros Hw. unfold bits_at. rewrite Z.land_ones by exact Hw.
  apply Z.mod_pos_bound. apply Z.pow_pos_nonneg; lia.
Qed.

(** The four palette codes that fit the field decode to their index. *)
Lemma decode_palette_code (z i : Z) :
  0 <= i <= 3 -> bits_at 42 6 z = 16 * i -> d_skin_tone (decode_int z) = i.
Proof.
  intros Hi Hz. rewrite decode_int_fields. cbn [d_skin_tone]. rewrite Hz.
  assert (Hc : i = 0 \/ i = 1 \/ i = 2 \/ i = 3) by lia.
  destruct Hc as [->|[->|[->| ->]]]; reflexivity.
Qed.

End RoundTrip.

(** ** Claims about the codec *)

Section CodecClaims.
Import PyStr.

(** C1 (round-trip identity) does not hold on the code for skin tone 4.
    The record [darkest_params] is valid; encoding it and decoding the
    result brings back the morphs, hair, beard and age, but skin tone 0
    instead of 4: the palette code 64 is masked with [0b111111], which
    leaves 0 in bits 42-47. *)
Theorem round_trip_loses_skin_tone_4 :
  valid darkest_params /\
  exists code d,
    encode_face_code darkest_params = Ok code /\
    decode_face_code code = Ok d /\
    d_morphs d = morphs darkest_params /\
    d_hair_index d = hair_index darkest_params /\
    d_beard_index d = beard_index darkest_params /\
    d_age d = age darkest_params /\
    d_skin_tone d = 0 /\
    d_skin_tone d <> skin_tone darkest_params.
Proof.
  split; [reflexivity|].
  exists "0x000001e50afac688"%string, (mkFaceDict [0; 1; 2; 3; 4; 5; 6; 7] 10 20 30 0).
  split; [vm_compute; reflexivity|].
  split; [vm_compute; reflexivity|].
  cbn. repeat split; discriminate.
Qed.

(** C2 (skin-tone palette round-trip) does not hold on the code for
    index 4.  Encoding [darkest_params] leaves 0, not the palette code
    64, in bits 42-47, and the accumulator decodes to skin tone 0; no
    integer carries 64 in a six-bit field, so decode never reaches the
    entry [64: 4] of its inverse map. *)
Theorem palette_code_64_masked_away :
  (exists x,
     encode_int darkest_params = Ok x /\
     bits_at 42 6 x = 0 /\
     bits_at 42 6 x <> 64 /\
     d_skin_tone (decode_int x) = 0) /\
  (forall z, bits_at 42 6 z <> 64).
Proof.
  split.
  - exists 2083243345544. split; [vm_compute; reflexivity|].
    split; [vm_compute; reflexivity|].
    split; [vm_compute; discriminate|vm_compute; reflexivity].
  - intros z. pose proof (bits_at_range 42 6 z ltac:(lia)) as H.
    change (2 ^ 6) with 64 in H. lia.
Qed.

(** The indices 0 to 3 are placed as their palette codes 0, 16, 32 and
    48, and those four codes decode to their index. *)
Lemma palette_codes_below_4 (p : FaceParameters) (x : Z) :
  valid p -> skin_tone p <> 4 -> encode_int p = Ok x ->
  bits_at 42 6 x = 16 * skin_tone p /\
  d_skin_tone (decode_int x) = skin_tone p.
Proof.
  intros Hv Hs Hx.
  destruct (encode_then_decode p Hv) as (x' & Hx' & _ & _ & _ & Hd & Hb).
  rewrite Hx in Hx'. apply Ok_inj in Hx'. subst x'.
  destruct (Z.eqb_spec (skin_tone p) 4); [contradiction|].
  split; [exact Hb|]. rewrite Hd. reflexivity.
Qed.

(** Once the string has parsed, decode returns: no field can make it
    raise. *)
Lemma decode_after_parse (hex_code : string) (face_int : Z) :
  int16 (strip_prefix hex_code) = Ok face_int ->
  decode_face_code hex_code = Ok (decode_int face_int).
Proof. intros H. unfold decode_face_code. rewrite H. reflexivity. Qed.

(** C3 (skin-tone fallback on decode).  When the input string parses to
    an integer whose six-bit field at bits 42-47 is none of the keys 0,
    16, 32, 48, 64 of the inverse map, decode does not raise: it returns
    the decoded fields, and the skin tone among them is 0. *)
Theorem skin_tone_fallback (hex_code : string) (face_int : Z) :
  int16 (strip_prefix hex_code) = Ok face_int ->
  ~ In (bits_at 42 6 face_int) (map fst skin_map) ->
  decode_face_code hex_code = Ok (decode_int face_int) /\
  d_skin_tone (decode_int face_int) = 0.
Proof.
  intros Hparse Hnot. split; [apply decode_after_parse; exact Hparse|].
  rewrite decode_int_fields. cbn [d_skin_tone].
  generalize dependent (bits_at 42 6 face_int). intros raw Hnot.
  unfold skin_map in *. cbn [map fst In] in Hnot. cbn [dict_get].
  repeat match goal with
    | |- context [raw =? ?k] => destruct (Z.eqb_spec raw k); [lia|]
    end.
  reflexivity.
Qed.

Lemma skin_tone_fallback_witness :
  bits_at 42 6 21990232555520 = 5 /\
  decode_face_code "0x0000140000000000" = Ok (decode_int 21990232555520) /\
  d_skin_tone (decode_int 21990232555520) = 0.
Proof.
  split; [reflexivity|].
  apply (skin_tone_fallback "0x0000140000000000" 21990232555520).
  - vm_compute. reflexivity.
  - vm_compute. intros H. repeat destruct H as [H|H]; try discriminate H. exact H.
Defined.

(** C4 (canonical encoding format).  Encoding a valid record gives
    [0x] followed by the accumulator rendered as exactly sixteen
    lower-case hexadecimal digits, eighteen characters in all, and the
    string matches the [FaceCode] pattern. *)
Theorem canonical_encoding_format (p : FaceParameters) :
  valid p ->
  exists x digits,
    encode_int p = Ok x /\
    encode_face_code p = Ok ("0x" ++ digits)%string /\
    String.length digits = 16%nat /\
    all_lower_hex digits = true /\
    hex_fold 0 digits = x /\
    String.length ("0x" ++ digits) = 18%nat /\
    FaceCode_pattern ("0x" ++ digits) = true.
Proof.
  intros Hv.
  destruct (encode_then_decode p Hv) as (x & Hx & Hbound & Henc & _).
  assert (Hx64 : 0 <= x < 2 ^ 64).
  { assert (2 ^ 48 <= 2 ^ 64) by (apply Z.pow_le_mono_r; lia). lia. }
  destruct (format_016x_spec x Hx64) as (Hlen & Hlow & Hval).
  exists x, (format_016x x).
  split; [exact Hx|]. split; [exact Henc|]. split; [exact Hlen|].
  split; [exact Hlow|]. split; [exact Hval|]. split.
  - rewrite string_app_length, Hlen. reflexivity.
  - apply pattern_of_digits; assumption.
Qed.

Lemma canonical_encoding_format_witness :
  exists x digits,
    encode_int sample_params = Ok x /\
    encode_face_code sample_params = Ok ("0x" ++ digits)%string /\
    String.length digits = 16%nat /\
    all_lower_hex digits = true /\
    hex_fold 0 digits = x /\
    String.length ("0x" ++ digits) = 18%nat /\
    FaceCode_pattern ("0x" ++ digits) = true.
Proof.
  apply (canonical_encoding_format sample_params). reflexivity.
Defined.

End CodecClaims.

(** ** Masking keeps a morph inside its own three bits *)

Section Masking.

Lemma encode_morphs_lor (ms : list Z) :
  forall i acc, encode_morphs i ms acc = Z.lor acc (encode_morphs i ms 0).
Proof.
  induction ms as [|m ms IH]; intros i acc; cbn [encode_morphs].
  - rewrite Z.lor_0_r. reflexivity.
  - rewrite (IH (i + 1) (Z.lor acc _)), (IH (i + 1) (Z.lor 0 _)).
    rewrite Z.lor_0_l, Z.lor_assoc. reflexivity.
Qed.

Lemma encode_morphs_app (l1 l2 : list Z) :
  forall i acc,
    encode_morphs i (l1 ++ l2) acc
    = encode_morphs (i + Z.of_nat (List.length l1)) l2 (encode_morphs i l1 acc).
Proof.
  induction l1 as [|m l1 IH]; intros i acc.
  - cbn [app List.length encode_morphs]. rewrite Z.add_0_r. reflexivity.
  - cbn [app encode_morphs]. rewrite IH. f_equal.
    cbn [List.length]. rewrite Nat2Z.inj_succ. lia.
Qed.

(** The accumulator after the morph loop, with the contribution of the
    morph that follows [pre] set apart. *)
Lemma encode_morphs_split (pre post : list Z) (v : Z) :
  encode_morphs 0 (pre ++ v :: post) 0
  = Z.lor (Z.lor (encode_morphs 0 pre 0) (put (3 * Z.of_nat (List.length pre)) 3 v))
      (encode_morphs (Z.of_nat (List.length pre) + 1) post 0).
Proof.
  rewrite encode_morphs_app. cbn [encode_morphs]. rewrite Z.add_0_l.
  rewrite encode_morphs_lor. f_equal. f_equal.
  unfold put, MORPH_BITS. change (Z.ones 3) with 7. f_equal. lia.
Qed.

Lemma encode_int_split (pre post : list Z) (v h b a s x : Z) :
  encode_int (mkFaceParameters (pre ++ v :: post) h b a s) = Ok x ->
  exists sv,
    list_index skin_values s = Ok sv /\
    x = Z.lor (Z.lor (Z.lor (Z.lor
          (Z.lor (Z.lor (encode_morphs 0 pre 0)
                    (put (3 * Z.of_nat (List.length pre)) 3 v))
             (encode_morphs (Z.of_nat (List.length pre) + 1) post 0))
          (Z.shiftl (Z.land h 63) 24)) (Z.shiftl (Z.land b 63) 30))
          (Z.shiftl (Z.land a 63) 36)) (Z.shiftl (Z.land sv 63) 42).
Proof.
  unfold encode_int. cbn [morphs hair_index beard_index age skin_tone].
  destruct (list_index skin_values s) as [sv|e]; cbn [Py.bind]; [|discriminate].
  intros Hx. apply Ok_inj in Hx. subst x.
  rewrite encode_morphs_split. exists sv. split; reflexivity.
Qed.

(** Outside the three bits of the morph that follows [pre], the
    accumulator does not depend on the value of that morph. *)
Lemma morph_bits_isolated (pre post : list Z) (v v' h b a s x x' n : Z) :
  encode_int (mkFaceParameters (pre ++ v :: post) h b a s) = Ok x ->
  encode_int (mkFaceParameters (pre ++ v' :: post) h b a s) = Ok x' ->
  ~ (3 * Z.of_nat (List.length pre) <= n < 3 * Z.of_nat (List.length pre) + 3) ->
  Z.testbit x n = Z.testbit x' n.
Proof.
  intros Hx Hx' Hn.
  destruct (encode_int_split _ _ _ _ _ _ _ _ Hx) as (sv & Hsv & ->).
  destruct (encode_int_split _ _ _ _ _ _ _ _ Hx') as (sv' & Hsv' & ->).
  rewrite Hsv in Hsv'. apply Ok_inj in Hsv'. subst sv'.
  rewrite !Z.lor_spec, !testbit_put by lia.
  assert (Hout : (3 * Z.of_nat (List.length pre) <=? n)
                 && (n <? 3 * Z.of_nat (List.length pre) + 3) = false).
  { destruct (Z.leb_spec (3 * Z.of_nat (List.length pre)) n),
      (Z.ltb_spec n (3 * Z.of_nat (List.length pre) + 3)); simpl; auto; lia. }
  rewrite Hout. reflexivity.
Qed.

(** The same, read field by field. *)
Lemma field_isolated (x x' lo off w : Z) :
  0 <= off -> 0 <= w ->
  (forall n, ~ (lo <= n < lo + 3) -> Z.testbit x n = Z.testbit x' n) ->
  off + w <= lo \/ lo + 3 <= off ->
  bits_at off w x = bits_at off w x'.
Proof.
  intros Hoff Hw Hbits Hdis. apply Z.bits_inj'. intros n Hn.
  rewrite !testbit_bits_at by lia.
  destruct (Z.ltb_spec n w) as [Hlt|Hge].
  - rewrite Hbits by lia. reflexivity.
  - rewrite !andb_false_r. reflexivity.
Qed.

End Masking.

Section MaskingAllFields.

(** The morph loop started at index [i] writes only bits
    [3i .. 3(i + len) - 1]. *)
Lemma encode_morphs_bits_out (ms : list Z) :
  forall i n, 0 <= i ->
    n < 3 * i \/ 3 * (i + Z.of_nat (List.length ms)) <= n ->
    Z.testbit (encode_morphs i ms 0) n = false.
Proof.
  induction ms as [|m ms IH]; intros i n Hi Hn; cbn [encode_morphs].
  - apply Z.bits_0.
  - rewrite encode_morphs_lor, Z.lor_0_l, Z.lor_spec.
    cbn [List.length] in Hn. rewrite Nat2Z.inj_succ in Hn.
    replace (Z.shiftl (Z.land m 7) (i * MORPH_BITS)) with (put (3 * i) 3 m)
      by (unfold put, MORPH_BITS; change (Z.ones 3) with 7; f_equal; lia).
    rewrite testbit_put by lia. rewrite IH by lia.
    destruct (Z.leb_spec (3 * i) n), (Z.ltb_spec n (3 * i + 3));
      simpl; auto; lia.
Qed.

Lemma bits_at_encode_morphs_out (ms : list Z) (i off w : Z) :
  0 <= i -> 0 <= off -> 0 <= w ->
  off + w <= 3 * i \/ 3 * (i + Z.of_nat (List.length ms)) <= off ->
  bits_at off w (encode_morphs i ms 0) = 0.
Proof.
  intros Hi Hoff Hw Hdis. apply Z.bits_inj'. intros n Hn.
  rewrite testbit_bits_at, Z.bits_0 by lia.
  destruct (Z.ltb_spec n w) as [Hlt|Hge].
  - rewrite encode_morphs_bits_out by lia. apply andb_false_r.
  - rewrite andb_false_r. reflexivity.
Qed.

Lemma encode_morphs_bound (ms : list Z) :
  forall i N, 0 <= i -> 3 * (i + Z.of_nat (List.length ms)) <= N ->
    0 <= encode_morphs i ms 0 < 2 ^ N.
Proof.
  induction ms as [|m ms IH]; intros i N Hi HN; cbn [encode_morphs].
  - split; [lia|]. apply Z.pow_pos_nonneg; lia.
  - cbn [List.length] in HN. rewrite Nat2Z.inj_succ in HN.
    rewrite encode_morphs_lor, Z.lor_0_l.
    replace (Z.shiftl (Z.land m 7) (i * MORPH_BITS)) with (put (3 * i) 3 m)
      by (unfold put, MORPH_BITS; change (Z.ones 3) with 7; f_equal; lia).
    apply lor_bound; [lia|apply put_bound; lia|apply IH; lia].
Qed.

(** With at most eight morphs, whatever integers the fields hold, every
    field of the accumulator holds its own input reduced modulo the
    field width, and nothing is written above bit 47. *)
Lemma fields_hold_own_input (pre post : list Z) (v h b a s x : Z) :
  (List.length (pre ++ v :: post) <= 8)%nat ->
  encode_int (mkFaceParameters (pre ++ v :: post) h b a s) = Ok x ->
  bits_at (3 * Z.of_nat (List.length pre)) 3 x = v mod 8 /\
  bits_at 24 6 x = h mod 64 /\
  bits_at 30 6 x = b mod 64 /\
  bits_at 36 6 x = a mod 64 /\
  (exists sv, list_index skin_values s = Ok sv /\ bits_at 42 6 x = sv mod 64) /\
  0 <= x < 2 ^ 48.
Proof.
  intros Hlen Hx. rewrite length_app in Hlen. cbn [List.length] in Hlen.
  destruct (encode_int_split _ _ _ _ _ _ _ _ Hx) as (sv & Hsv & ->).
  change (Z.shiftl (Z.land h 63) 24) with (put 24 6 h).
  change (Z.shiftl (Z.land b 63) 30) with (put 30 6 b).
  change (Z.shiftl (Z.land a 63) 36) with (put 36 6 a).
  change (Z.shiftl (Z.land sv 63) 42) with (put 42 6 sv).
  assert (Hmask3 : forall z, Z.land z (Z.ones 3) = z mod 8)
    by (intros z; rewrite Z.land_ones by lia; reflexivity).
  assert (Hmask6 : forall z, Z.land z (Z.ones 6) = z mod 64)
    by (intros z; rewrite Z.land_ones by lia; reflexivity).
  set (i := Z.of_nat (List.length pre)) in *.
  assert (Hi : 0 <= i) by (subst i; lia).
  assert (Hpost : 0 <= Z.of_nat (List.length post)) by lia.
  assert (Hfit : i + 1 + Z.of_nat (List.length post) <= 8) by (subst i; lia).
  assert (Hpre0 : forall off w, 0 <= off -> 0 <= w -> 3 * i <= off ->
            bits_at off w (encode_morphs 0 pre 0) = 0).
  { intros off w Hoff Hw Hle. apply bits_at_encode_morphs_out; subst i; lia. }
  assert (Hpost0 : forall off w, 0 <= off -> 0 <= w ->
            off + w <= 3 * (i + 1) \/ 24 <= off ->
            bits_at off w (encode_morphs (i + 1) post 0) = 0).
  { intros off w Hoff Hw Hdis. apply bits_at_encode_morphs_out; lia. }
  split; [|split; [|split; [|split; [|split; [|split]]]]].
  - rewrite !bits_at_lor.
    rewrite (Hpre0 (3 * i) 3), (Hpost0 (3 * i) 3), bits_at_put_same by lia.
    rewrite !bits_at_put_other by lia.
    rewrite Z.lor_0_l, !Z.lor_0_r. apply Hmask3.
  - rewrite !bits_at_lor.
    rewrite (Hpre0 24 6), (Hpost0 24 6), bits_at_put_same by lia.
    rewrite !bits_at_put_other by lia.
    rewrite !Z.lor_0_l, !Z.lor_0_r. apply Hmask6.
  - rewrite !bits_at_lor.
    rewrite (Hpre0 30 6), (Hpost0 30 6), bits_at_put_same by lia.
    rewrite !bits_at_put_other by lia.
    rewrite !Z.lor_0_l, !Z.lor_0_r. apply Hmask6.
  - rewrite !bits_at_lor.
    rewrite (Hpre0 36 6), (Hpost0 36 6), bits_at_put_same by lia.
    rewrite !bits_at_put_other by lia.
    rewrite !Z.lor_0_l, !Z.lor_0_r. apply Hmask6.
  - exists sv. split; [exact Hsv|].
    rewrite !bits_at_lor.
    rewrite (Hpre0 42 6), (Hpost0 42 6), bits_at_put_same by lia.
    rewrite !bits_at_put_other by lia.
    rewrite !Z.lor_0_l. apply Hmask6.
  - apply Z.lor_nonneg. split; [|apply put_bound with (n := 48); lia].
    repeat (apply Z.lor_nonneg; split;
            [|first [apply put_bound with (n := 48); lia
                    |apply (encode_morphs_bound post (i + 1) 48); lia]]).
    apply (encode_morphs_bound pre 0 48); subst i; lia.
  - repeat (apply lor_bound; [lia| |apply put_bound; lia]).
    apply lor_bound; [lia| |apply encode_morphs_bound; lia].
    apply lor_bound; [lia| |apply put_bound; lia].
    apply encode_morphs_bound; subst i; lia.
Qed.

End MaskingAllFields.

Section MaskingClaim.

(** C5 (field masking containment).  Every field is masked to its width
    before it is shifted into place.  Let two records differ only in the
    morph at position [i] (the one after [pre]), one holding any integer
    [v], the other any integer [v'], in range or not.  Their
    accumulators agree on every bit outside bits [3i .. 3i+2]; so every
    other morph field reads the same in both, and when [i] is one of the
    eight morph positions so do hair_index, beard_index, age and the
    skin field.  Moreover, when the record has at most eight morphs,
    whatever integers its morphs, hair_index, beard_index and age hold,
    each field of the accumulator holds exactly its own input reduced
    modulo the field width (the morph modulo 8; hair, beard, age and the
    palette code modulo 64) and no bit above 47 is set: no out-of-range
    input reaches the bits of another field. *)
Theorem morph_mask_containment (pre post : list Z) (v v' h b a s x x' : Z) :
  encode_int (mkFaceParameters (pre ++ v :: post) h b a s) = Ok x ->
  encode_int (mkFaceParameters (pre ++ v' :: post) h b a s) = Ok x' ->
  (forall n,
     ~ (3 * Z.of_nat (List.length pre) <= n < 3 * Z.of_nat (List.length pre) + 3) ->
     Z.testbit x n = Z.testbit x' n) /\
  (forall j, 0 <= j -> j <> Z.of_nat (List.length pre) ->
     bits_at (3 * j) 3 x = bits_at (3 * j) 3 x') /\
  (Z.of_nat (List.length pre) < 8 ->
     bits_at 24 6 x = bits_at 24 6 x' /\ bits_at 30 6 x = bits_at 30 6 x' /\
     bits_at 36 6 x = bits_at 36 6 x' /\ bits_at 42 6 x = bits_at 42 6 x') /\
  ((List.length (pre ++ v :: post) <= 8)%nat ->
     bits_at (3 * Z.of_nat (List.length pre)) 3 x = v mod 8 /\
     bits_at 24 6 x = h mod 64 /\
     bits_at 30 6 x = b mod 64 /\
     bits_at 36 6 x = a mod 64 /\
     (exists sv, list_index skin_values s = Ok sv /\ bits_at 42 6 x = sv mod 64) /\
     0 <= x < 2 ^ 48).
Proof.
  intros Hx Hx'.
  assert (Hbits : forall n,
    ~ (3 * Z.of_nat (List.length pre) <= n < 3 * Z.of_nat (List.length pre) + 3) ->
    Z.testbit x n = Z.testbit x' n).
  { intros n Hn. exact (morph_bits_isolated pre post v v' h b a s x x' n Hx Hx' Hn). }
  split; [exact Hbits|]. split; [|split].
  - intros j Hj Hne.
    apply (field_isolated x x' (3 * Z.of_nat (List.length pre))); try lia.
    exact Hbits.
  - intros Hi.
    repeat split;
      apply (field_isolated x x' (3 * Z.of_nat (List.length pre)));
      try lia; exact Hbits.
  - intros Hlen. exact (fields_hold_own_input pre post v h b a s x Hlen Hx).
Qed.

(** An eight-bit value 255 in morph 2 against the in-range value 5,
    with hair_index 74, beard_index 84 and age 94 out of range too:
    morph 3 is untouched, morph 2 holds 255 mod 8, and hair, beard and
    age hold 10, 20 and 30, none spilling into its neighbour. *)
Lemma morph_mask_containment_witness :
  bits_at (3 * 3) 3 2083227036666 = bits_at (3 * 3) 3 2083227036538 /\
  bits_at (3 * 2) 3 2083227036666 = 255 mod 8 /\
  bits_at 24 6 2083227036666 = 74 mod 64 /\
  bits_at 30 6 2083227036666 = 84 mod 64 /\
  bits_at 36 6 2083227036666 = 94 mod 64 /\
  0 <= 2083227036666 < 2 ^ 48.
Proof.
  pose proof (morph_mask_containment [2; 7] [5; 6; 3] 255 5 74 84 94 0
                2083227036666 2083227036538 eq_refl eq_refl)
    as (_ & Hmorph & _ & Hall).
  destruct (Hall ltac:(simpl; lia)) as (Hv & Hh & Hb & Ha & _ & Hbound).
  split; [apply Hmorph; simpl; lia|].
  split; [exact Hv|]. split; [exact Hh|]. split; [exact Hb|].
  split; [exact Ha|exact Hbound].
Defined.

End MaskingClaim.

(** ** The validate operation *)

Section ValidateClaim.
Import PyStr FaceEndpoint.

Variable str_exn : exn -> string.

Lemma bits_at_in_range (off w hi x : Z) :
  0 <= w -> 2 ^ w = hi + 1 -> in_range 0 hi (bits_at off w x) = true.
Proof.
  intros Hw Hhi. apply in_range_spec.
  pose proof (bits_at_range off w x Hw). lia.
Qed.

Lemma dict_get_skin_ok (raw : Z) : skin_tone_ok (dict_get skin_map raw 0) = true.
Proof.
  unfold skin_map. cbn [dict_get].
  repeat match goal with
    | |- context [raw =? ?k] => destruct (raw =? k); [reflexivity|]
    end.
  reflexivity.
Qed.

(** The fields decode extracts always pass the range validation of
    [FaceParameters]. *)
Lemma decoded_fields_accepted (x : Z) :
  exists p, FaceParameters_of_dict (decode_int x) = Ok p.
Proof.
  eexists. unfold FaceParameters_of_dict. rewrite decode_int_fields.
  cbn [d_morphs d_hair_index d_beard_index d_age d_skin_tone].
  apply fields_valid.
  - unfold morphs_ok. cbn [List.length Nat.eqb forallb].
    rewrite !(bits_at_in_range _ 3 7) by (reflexivity || lia). reflexivity.
  - apply (bits_at_in_range _ 6 63); [lia|reflexivity].
  - apply (bits_at_in_range _ 6 63); [lia|reflexivity].
  - apply (bits_at_in_range _ 6 63); [lia|reflexivity].
  - apply dict_get_skin_ok.
Qed.

(** C6 (validate never errors).  For every input string validate
    returns a result, never an exception: the flag is true with the
    message "Face code is valid" when decode and the reconstruction of
    [FaceParameters] both succeed, and false with the text of the caught
    exception otherwise; the input string is echoed in both cases.  On
    the malformed input "not-a-code" the result is the one for the
    [ValueError] of the failed integer parse. *)
Theorem validate_never_raises (face_code : string) :
  validate_face_code str_exn face_code
  = Ok (match (d <- decode_face_code face_code ;; FaceParameters_of_dict d) with
        | Ok _ => mkValidate true face_code "Face code is valid"
        | Raise e => mkValidate false face_code (str_exn e)
        end) /\
  validate_face_code str_exn "not-a-code"
  = Ok (mkValidate false "not-a-code" (str_exn (InvalidLiteral 16 "not-a-code"))).
Proof.
  split; [|reflexivity].
  unfold validate_face_code, try_except.
  destruct (decode_face_code face_code) as [d|e]; cbn [Py.bind]; [|reflexivity].
  destruct (FaceParameters_of_dict d) as [p|e]; reflexivity.
Qed.

(** Since the reconstruction cannot fail, the flag says whether the
    string parsed. *)
Lemma validate_flag_is_parse (face_code : string) :
  validate_face_code str_exn face_code
  = Ok (match parse_int16 (strip_prefix face_code) with
        | Some _ => mkValidate true face_code "Face code is valid"
        | None => mkValidate false face_code
                    (str_exn (InvalidLiteral 16 (strip_prefix face_code)))
        end).
Proof.
  unfold validate_face_code, try_except, decode_face_code, int16.
  destruct (parse_int16 (strip_prefix face_code)) as [z|]; cbn [Py.bind]; [|reflexivity].
  destruct (decoded_fields_accepted z) as [p ->]. reflexivity.
Qed.

End ValidateClaim.

(** ** Decode input handling *)

Section DecodeInput.
Import PyStr.

Lemma hex_value_nonneg (c : ascii) (d : Z) : hex_value c = Some d -> 0 <= d.
Proof.
  unfold hex_value. intros H.
  repeat match type of H with
    | (if ?c then _ else _) = _ => destruct c eqn:?
    end; inversion H; subst; lia.
Qed.

Lemma hex_fold_nonneg (s : string) : forall acc, 0 <= acc -> 0 <= hex_fold acc s.
Proof.
  induction s as [|c s IH]; intros acc Hacc; simpl; [exact Hacc|].
  destruct (hex_value c) as [d|] eqn:Hc; [|exact Hacc].
  apply IH. pose proof (hex_value_nonneg c d Hc). lia.
Qed.

(** C7 as stated does not hold: the string "-ff" carries no prefix and
    is not a run of hexadecimal digits, yet decode does not fail on it
    (Python's [int] reads a sign). *)
Lemma decode_accepts_signed_input :
  ~ (forall s : string,
       (exists e, decode_face_code s = Raise e)
       <-> is_hex_digits (strip_prefix s) = false).
Proof.
  intros H. destruct (H "-ff"%string) as [_ Hfail].
  destruct (Hfail eq_refl) as [e He]. vm_compute in He. discriminate He.
Qed.

(** C7, amended.  Decode drops a leading [0x] and leaves a string
    without it alone.  When what remains is a non-empty run of
    hexadecimal digits, decode succeeds on its unsigned base-16 value.
    When decode fails, the exception is the [ValueError] of [int] on the
    remaining string, and that string is not such a run.  Failure is
    decided by [int(., 16)], which accepts more than bare digits. *)
Theorem decode_input_handling (s : string) :
  (forall r, s = ("0x" ++ r)%string -> strip_prefix s = r) /\
  (startswith s "0x" = false -> strip_prefix s = s) /\
  (is_hex_digits (strip_prefix s) = true ->
     0 <= hex_fold 0 (strip_prefix s) /\
     decode_face_code s = Ok (decode_int (hex_fold 0 (strip_prefix s)))) /\
  (forall e, decode_face_code s = Raise e ->
     e = InvalidLiteral 16 (strip_prefix s) /\ is_ValueError e = true /\
     is_hex_digits (strip_prefix s) = false) /\
  ((exists e, decode_face_code s = Raise e)
   <-> parse_int16 (strip_prefix s) = None).
Proof.
  assert (Hdigits : is_hex_digits (strip_prefix s) = true ->
            decode_face_code s = Ok (decode_int (hex_fold 0 (strip_prefix s)))).
  { intros H. apply decode_after_parse. unfold int16.
    rewrite parse_int16_hex_digits by exact H. reflexivity. }
  split; [|split; [|split; [|split]]].
  - intros r ->. apply strip_prefix_0x.
  - apply strip_prefix_none.
  - intros H. split; [apply hex_fold_nonneg; lia|exact (Hdigits H)].
  - intros e He.
    assert (Hnot : is_hex_digits (strip_prefix s) = false).
    { destruct (is_hex_digits (strip_prefix s)) eqn:E; [|reflexivity].
      rewrite (Hdigits eq_refl) in He. discriminate He. }
    unfold decode_face_code, int16 in He.
    destruct (parse_int16 (strip_prefix s)); cbn [Py.bind] in He; [discriminate He|].
    inversion He; subst. repeat split. exact Hnot.
  - unfold decode_face_code, int16.
    destruct (parse_int16 (strip_prefix s)); cbn [Py.bind]; split.
    + intros [e He]. discriminate He.
    + discriminate.
    + reflexivity.
    + intros _. eexists. reflexivity.
Qed.

End DecodeInput.

(** ** The profile parser and the update-face endpoint *)

Section ParserClaims.
Import ProfileParser.

Lemma build_characters_sentinel (raws : list char_data) :
  forall chars, build_characters raws = Ok chars ->
    chars = map sentinel_character raws.
Proof.
  induction raws as [|cd raws IH]; intros chars H; cbn [build_characters] in H.
  - apply Ok_inj in H. subst. reflexivity.
  - unfold Character_init in H.
    destruct (in_range 0 1 (cd_sex cd)); cbn [Py.bind] in H; [|discriminate H].
    destruct (build_characters raws) as [cs|e]; cbn [Py.bind] in H; [|discriminate H].
    apply Ok_inj in H. subst chars. cbn [map]. f_equal. apply IH. reflexivity.
Qed.

(** C8 (face-code extraction stub).  Whatever the enumeration library
    returns, when the parse operation returns a list of characters it is
    the list of raw records, in order, each turned into a [Character]
    with the name, sex and skin of its raw record and the face code
    "0x0000000000000000"; the appearance bytes play no part. *)
Theorem parse_profile_sentinel
    (list_characters : filesystem -> string -> result (list char_data))
    (fs : filesystem) (profile_path : string) (chars : list Character) :
  parse_profile list_characters fs profile_path = Ok chars ->
  exists raws,
    list_characters fs profile_path = Ok raws /\
    chars = map sentinel_character raws /\
    Forall (fun c => face_code c = "0x0000000000000000"%string) chars.
Proof.
  unfold parse_profile. intros H.
  destruct (list_characters fs profile_path) as [raws|e]; cbn [Py.bind] in H;
    [|discriminate H].
  exists raws. split; [reflexivity|].
  apply build_characters_sentinel in H. split; [exact H|].
  subst chars. apply Forall_forall. intros c Hin.
  apply in_map_iff in Hin as (cd & <- & _). reflexivity.
Qed.

End ParserClaims.

Lemma parse_profile_sentinel_witness :
  exists raws,
    Ok two_raw_records = Ok raws /\
    [mkCharacter "Hero" "0x0000000000000000" 0 3;
     mkCharacter "Lady" "0x0000000000000000" 1 0]
    = map sentinel_character raws /\
    Forall (fun c => face_code c = "0x0000000000000000"%string)
      [mkCharacter "Hero" "0x0000000000000000" 0 3;
       mkCharacter "Lady" "0x0000000000000000" 1 0].
Proof.
  apply (parse_profile_sentinel (fun _ _ => Ok two_raw_records) []
           "profiles.dat").
  reflexivity.
Defined.

Section UpdateClaim.
Import ProfileParser.

(** C9 (update-face stub) holds for the parser and for the status, but
    not for the message the endpoint reports.  The update operation
    returns [False] and leaves the stored files alone.  For an upload
    that exists, the endpoint raises its "Failed to update face" client
    error inside the [try] whose [except Exception] catches it again, so
    what leaves the endpoint is a 400 whose detail is [str] of that
    exception, not the text itself; the stored files are unchanged. *)
Theorem update_face_failure_is_rewrapped
    (str_exn : exn -> string) (UPLOADS_DIR : string)
    (joinpath : string -> string -> string)
    (fs : filesystem) (upload_id : string) (character_index : Z)
    (face_code : string) :
  path_exists fs (ProfilesEndpoint.upload_path_of UPLOADS_DIR joinpath upload_id) = true ->
  ProfileParser.update_character_face fs
    (ProfilesEndpoint.upload_path_of UPLOADS_DIR joinpath upload_id)
    character_index face_code = (false, fs) /\
  ProfilesEndpoint.update_character_face str_exn UPLOADS_DIR joinpath fs
    upload_id character_index face_code
  = (Raise (HTTPException 400
              (str_exn (HTTPException 400 "Failed to update face"))), fs).
Proof.
  intros Hex. split; [reflexivity|].
  unfold ProfilesEndpoint.update_character_face. rewrite Hex. reflexivity.
Qed.

End UpdateClaim.

(** With the framework's rendering of the exception the client reads
    "400: Failed to update face". *)
Lemma update_face_failure_is_rewrapped_witness :
  ProfileParser.update_character_face one_upload "/data/uploads/abc.dat" 0
    "0x0000000000000000" = (false, one_upload) /\
  ProfilesEndpoint.update_character_face
    (ProfilesEndpoint.framework_str (fun _ => EmptyString))
    "/data/uploads" slash_join one_upload "abc" 0 "0x0000000000000000"
  = (Raise (HTTPException 400 "400: Failed to update face"), one_upload).
Proof.
  apply (update_face_failure_is_rewrapped
           (ProfilesEndpoint.framework_str (fun _ => EmptyString))
           "/data/uploads" slash_join one_upload "abc" 0 "0x0000000000000000").
  reflexivity.
Defined.

(** ** The real-time channel *)

Section ChannelClaim.
Import WebSocket.

Variable str_exn : exn -> string.
Variable json_loads : string -> result json.
Variable json_dumps : json -> string.
Variable coerce_int : json -> option Z.

Local Abbreviation handle_text :=
  (handle_text str_exn json_loads json_dumps coerce_int).
Local Abbreviation serve :=
  (serve str_exn json_loads json_dumps coerce_int).

(** A [face_update] whose parameters fail validation: one error frame,
    and the loop goes on to the next event. *)
Lemma face_update_invalid_parameters
    (data : string) (members : list (string * json)) (parameters : json)
    (fields : list string) (rest : list event) (sent : list string) :
  json_loads data = Ok (JObj members) ->
  assoc "type" members = Some (JStr "face_update") ->
  assoc "parameters" members = Some parameters ->
  FaceParameters_of_json coerce_int parameters = Raise (ValidationError fields) ->
  serve (Text data :: rest) sent
  = serve rest (sent ++ [error_frame str_exn json_dumps (ValidationError fields)])%list.
Proof.
  intros Hload Hty Hpar Hval. cbn [WebSocket.serve].
  unfold WebSocket.handle_text. rewrite Hload. cbn [py_get]. rewrite Hty.
  cbn [eq_str].
  replace (String.eqb "face_update" "face_update") with true by reflexivity.
  unfold face_update_body. cbn [py_subscript]. rewrite Hpar. cbn [Py.bind].
  rewrite Hval. cbn [Py.bind is_ValueError]. reflexivity.
Qed.

(** C10 (face_update without parameters).  When the received text
    parses to a JSON object whose type is "face_update" and which has
    no "parameters" key, the key lookup raises [KeyError], which is not
    a [ValueError]: the turn sends no frame and the handler ends with
    that exception uncaught, the remaining events unread.  A
    [face_update] whose parameters are present but fail validation
    instead gets one error frame, and the loop continues with the next
    event. *)
Theorem face_update_without_parameters
    (data : string) (members : list (string * json))
    (rest : list event) (sent : list string) :
  json_loads data = Ok (JObj members) ->
  assoc "type" members = Some (JStr "face_update") ->
  assoc "parameters" members = None ->
  is_ValueError (KeyError "parameters") = false /\
  handle_text data sent = (Raise (KeyError "parameters"), sent) /\
  serve (Text data :: rest) sent = (Fault (KeyError "parameters"), sent) /\
  (forall data' members' parameters fields,
     json_loads data' = Ok (JObj members') ->
     assoc "type" members' = Some (JStr "face_update") ->
     assoc "parameters" members' = Some parameters ->
     FaceParameters_of_json coerce_int parameters = Raise (ValidationError fields) ->
     serve (Text data' :: rest) sent
     = serve rest
         (sent ++ [error_frame str_exn json_dumps (ValidationError fields)])%list).
Proof.
  intros Hload Hty Hpar.
  assert (Hturn : handle_text data sent = (Raise (KeyError "parameters"), sent)).
  { unfold WebSocket.handle_text. rewrite Hload. cbn [py_get]. rewrite Hty.
    cbn [eq_str].
    replace (String.eqb "face_update" "face_update") with true by reflexivity.
    unfold face_update_body. cbn [py_subscript]. rewrite Hpar. reflexivity. }
  split; [reflexivity|]. split; [exact Hturn|]. split.
  - cbn [WebSocket.serve]. rewrite Hturn. reflexivity.
  - intros data' members' parameters fields H1 H2 H3 H4.
    apply (face_update_invalid_parameters data' members' parameters fields); assumption.
Qed.

End ChannelClaim.

(** With the sample reader, the message without parameters ends the
    handler with nothing sent, and a ping queued behind it is never
    answered. *)
Lemma face_update_without_parameters_witness :
  Py.is_ValueError (KeyError "parameters") = false /\
  WebSocket.handle_text (fun _ => EmptyString) sample_loads sample_dumps
    sample_coerce_int bare_face_update []
  = (Raise (KeyError "parameters"), []) /\
  WebSocket.serve (fun _ => EmptyString) sample_loads sample_dumps
    sample_coerce_int [WebSocket.Text bare_face_update; WebSocket.Disconnect] []
  = (WebSocket.Fault (KeyError "parameters"), []).
Proof.
  destruct (face_update_without_parameters (fun _ => EmptyString) sample_loads
              sample_dumps sample_coerce_int bare_face_update
              [("type"%string, WebSocket.JStr "face_update")]
              [WebSocket.Disconnect] [] eq_refl eq_refl eq_refl)
    as (H1 & H2 & H3 & _).
  split; [exact H1|]. split; [exact H2|exact H3].
Defined.

(** ** The examples of the specification, evaluated *)

Example encode_sample :
  encode_face_code sample_params = Ok "0x000081e50afac688"%string.
Proof. reflexivity. Qed.

Example decode_sample :
  decode_face_code "0x000081e50afac688"
  = Ok (mkFaceDict [0; 1; 2; 3; 4; 5; 6; 7] 10 20 30 2).
Proof. vm_compute. reflexivity. Qed.

Example face_code_pattern_cases :
  FaceCode_pattern "0xdeadbeef" = true /\
  FaceCode_pattern "deadbeef" = false /\
  FaceCode_pattern "0xZZ" = false.
Proof. repeat split. Qed.

Example decode_without_prefix :
  decode_face_code "81e50afac688" = decode_face_code "0x000081e50afac688".
Proof. vm_compute. reflexivity. Qed.

Example decode_second_prefix :
  decode_face_code "0x0x10" = Ok (decode_int 16).
Proof. vm_compute. reflexivity. Qed.

(** A [face_update] with an empty parameters object is answered by one
    error frame and the handler stays in its loop until the client
    leaves. *)
Example empty_parameters_get_error_frame :
  WebSocket.serve (fun _ => "invalid"%string) sample_loads sample_dumps
    sample_coerce_int [WebSocket.Text empty_face_update; WebSocket.Disconnect] []
  = (WebSocket.Closed,
     [sample_dumps (WebSocket.JObj [("type"%string, WebSocket.JStr "error");
                                    ("message"%string, WebSocket.JStr "invalid")])]).
Proof. vm_compute. reflexivity. Qed.

(** * Further properties of the codec *)

Section CodecMore.
Import PyStr FaceEndpoint.

Lemma bits_at_mod (off w n z : Z) :
  0 <= off -> 0 <= w -> off + w <= n ->
  bits_at off w (z mod 2 ^ n) = bits_at off w z.
Proof.
  intros Hoff Hw Hn. apply Z.bits_inj'. intros i Hi.
  rewrite !testbit_bits_at by lia.
  destruct (Z.ltb_spec i w) as [Hlt|Hge].
  - rewrite Z.mod_pow2_bits_low by lia. reflexivity.
  - rewrite !andb_false_r. reflexivity.
Qed.

(** Decode reads bits 0 to 47 and nothing above them. *)
Theorem decode_ignores_high_bits (z : Z) :
  decode_int (z mod 2 ^ 48) = decode_int z.
Proof.
  rewrite !decode_int_fields. rewrite !bits_at_mod by lia. reflexivity.
Qed.

(** Putting a field back above the bits below it rebuilds the number up
    to the end of the field. *)
Lemma append_field (k w n z : Z) :
  0 <= k -> 0 <= w -> n = k + w ->
  Z.lor (z mod 2 ^ k) (put k w (bits_at k w z)) = z mod 2 ^ n.
Proof.
  intros Hk Hw ->. apply Z.bits_inj'. intros i Hi.
  rewrite Z.lor_spec, !Z.testbit_mod_pow2, testbit_put, testbit_bits_at by lia.
  replace (i - k + k) with i by lia.
  destruct (Z.ltb_spec i k), (Z.leb_spec k i), (Z.ltb_spec i (k + w)),
    (Z.leb_spec 0 (i - k)), (Z.ltb_spec (i - k) w); try lia; simpl;
    rewrite ?andb_true_r, ?andb_false_r, ?orb_false_r; reflexivity.
Qed.

Lemma first_field (w z : Z) :
  0 <= w -> Z.lor 0 (put 0 w (bits_at 0 w z)) = z mod 2 ^ w.
Proof.
  intros Hw. rewrite <- (append_field 0 w w z) by lia.
  rewrite Z.pow_0_r, Z.mod_1_r. reflexivity.
Qed.

Lemma init_valid (m : list Z) (h b a s : Z) (p : FaceParameters) :
  FaceParameters_init m h b a s = Ok p -> valid p.
Proof.
  intros H. assert (Hp : p = mkFaceParameters m h b a s).
  { unfold FaceParameters_init in H.
    destruct (FaceParameters_errors _); [|discriminate H].
    apply Ok_inj in H. congruence. }
  subst p. exact H.
Qed.

(** The record that the decoded fields of an integer build. *)
Lemma decoded_params (x : Z) :
  FaceParameters_of_dict (decode_int x)
  = Ok (mkFaceParameters (d_morphs (decode_int x)) (d_hair_index (decode_int x))
          (d_beard_index (decode_int x)) (d_age (decode_int x))
          (d_skin_tone (decode_int x))).
Proof.
  destruct (decoded_fields_accepted x) as [p Hp]. rewrite Hp.
  unfold FaceParameters_of_dict, FaceParameters_init in Hp.
  destruct (FaceParameters_errors _); [|discriminate Hp].
  symmetry. exact Hp.
Qed.

(** Decoding then encoding: an integer below [2 ^ 48] whose skin field
    holds one of the palette codes 0, 16, 32, 48 is rebuilt exactly by
    encoding the record decoded from it. *)
Theorem decode_then_encode (x : Z) :
  0 <= x < 2 ^ 48 ->
  In (bits_at 42 6 x) [0; 16; 32; 48] ->
  exists p,
    FaceParameters_of_dict (decode_int x) = Ok p /\
    valid p /\
    encode_int p = Ok x /\
    encode_face_code p = Ok ("0x" ++ format_016x x)%string.
Proof.
  intros Hx Hraw.
  assert (Hsv : list_index skin_values (dict_get skin_map (bits_at 42 6 x) 0)
                = Ok (bits_at 42 6 x)).
  { cbn [In] in Hraw.
    destruct Hraw as [E|[E|[E|[E|[]]]]]; rewrite <- E; reflexivity. }
  assert (Henc : encode_int
            (mkFaceParameters (d_morphs (decode_int x)) (d_hair_index (decode_int x))
               (d_beard_index (decode_int x)) (d_age (decode_int x))
               (d_skin_tone (decode_int x))) = Ok x).
  { rewrite decode_int_fields.
    cbn [d_morphs d_hair_index d_beard_index d_age d_skin_tone].
    rewrite (encode_int_eight _ _ _ _ _ _ _ _ _ _ _ _ _ Hsv). f_equal.
    rewrite first_field by lia.
    rewrite (append_field 3 3 6), (append_field 6 3 9), (append_field 9 3 12),
      (append_field 12 3 15), (append_field 15 3 18), (append_field 18 3 21),
      (append_field 21 3 24), (append_field 24 6 30), (append_field 30 6 36),
      (append_field 36 6 42), (append_field 42 6 48) by lia.
    apply Z.mod_small. exact Hx. }
  eexists. split; [apply decoded_params|]. split; [|split].
  - exact (init_valid _ _ _ _ _ _ (decoded_params x)).
  - exact Henc.
  - unfold encode_face_code. rewrite Henc. reflexivity.
Qed.

Lemma decode_then_encode_witness :
  exists p,
    FaceParameters_of_dict (decode_int 142820731700872) = Ok p /\
    valid p /\
    encode_int p = Ok 142820731700872 /\
    encode_face_code p = Ok ("0x" ++ format_016x 142820731700872)%string.
Proof.
  apply (decode_then_encode 142820731700872).
  - vm_compute. split; [discriminate|reflexivity].
  - vm_compute. tauto.
Defined.

(** Valid records with a skin tone other than 4 that encode to the same
    string are the same record. *)
Theorem encode_injective_below_4 (p q : FaceParameters) :
  valid p -> valid q -> skin_tone p <> 4 -> skin_tone q <> 4 ->
  encode_face_code p = encode_face_code q -> p = q.
Proof.
  intros Hp Hq Hsp Hsq Heq.
  destruct (round_trip_below_4 p Hp Hsp) as (cp & Hcp & Hdp).
  destruct (round_trip_below_4 q Hq Hsq) as (cq & Hcq & Hdq).
  rewrite Hcp, Hcq in Heq. apply Ok_inj in Heq. subst cq.
  rewrite Hdp in Hdq. apply Ok_inj in Hdq.
  destruct p, q. cbn [morphs hair_index beard_index age skin_tone] in Hdq.
  inversion Hdq. reflexivity.
Qed.

Lemma encode_injective_below_4_witness : sample_params = sample_params.
Proof.
  apply (encode_injective_below_4 sample_params sample_params);
    try reflexivity; vm_compute; discriminate.
Defined.

(** Skin tones 4 and 0 always share their code, whatever the other
    fields hold. *)
Theorem skin_tone_4_encodes_as_0 (m : list Z) (h b a : Z) :
  encode_face_code (mkFaceParameters m h b a 4)
  = encode_face_code (mkFaceParameters m h b a 0).
Proof. reflexivity. Qed.

Lemma land7_mod (v : Z) : Z.land (v mod 8) 7 = Z.land v 7.
Proof.
  change 7 with (Z.ones 3). change 8 with (2 ^ 3).
  rewrite !Z.land_ones by lia. apply Z.mod_mod. lia.
Qed.

Lemma land63_mod (v : Z) : Z.land (v mod 64) 63 = Z.land v 63.
Proof.
  change 63 with (Z.ones 6). change 64 with (2 ^ 6).
  rewrite !Z.land_ones by lia. apply Z.mod_mod. lia.
Qed.

Lemma encode_morphs_mod (ms : list Z) :
  forall i acc,
    encode_morphs i (map (fun v => v mod 8) ms) acc = encode_morphs i ms acc.
Proof.
  induction ms as [|m ms IH]; intros i acc; cbn [map encode_morphs]; [reflexivity|].
  rewrite land7_mod. apply IH.
Qed.

(** Encode sees of every field only its value modulo the field width:
    each morph modulo 8, and hair, beard and age modulo 64. *)
Theorem encode_reduces_fields (m : list Z) (h b a s : Z) :
  encode_face_code (mkFaceParameters (map (fun v => v mod 8) m)
                      (h mod 64) (b mod 64) (a mod 64) s)
  = encode_face_code (mkFaceParameters m h b a s).
Proof.
  unfold encode_face_code, encode_int.
  cbn [morphs hair_index beard_index age skin_tone].
  rewrite encode_morphs_mod, !land63_mod. reflexivity.
Qed.

(** Encode fails exactly when the skin tone is no index of the
    five-entry palette in Python's sense, that is outside -5 .. 4; the
    exception is an [IndexError]; and a negative index in range counts
    from the end of the palette. *)
Theorem encode_skin_index (m : list Z) (h b a s : Z) :
  ((exists e, encode_int (mkFaceParameters m h b a s) = Raise e)
   <-> s < -5 \/ 4 < s) /\
  (forall e, encode_int (mkFaceParameters m h b a s) = Raise e ->
     e = IndexError "list index out of range") /\
  (-5 <= s < 0 ->
     encode_int (mkFaceParameters m h b a s)
     = encode_int (mkFaceParameters m h b a (s + 5))).
Proof.
  assert (Hin : -5 <= s <= 4 ->
            exists sv, list_index skin_values s = Ok sv /\
                       (s < 0 -> list_index skin_values (s + 5) = Ok sv)).
  { intros H.
    assert (Hc : s = -5 \/ s = -4 \/ s = -3 \/ s = -2 \/ s = -1 \/
                 s = 0 \/ s = 1 \/ s = 2 \/ s = 3 \/ s = 4) by lia.
    repeat destruct Hc as [->|Hc]; try subst s; eexists;
      (split; [reflexivity|intros; try lia; reflexivity]). }
  assert (Hout : s < -5 \/ 4 < s ->
            list_index skin_values s = Raise (IndexError "list index out of range")).
  { intros H. unfold list_index. cbn [skin_values List.length Z.of_nat].
    change (Z.pos (Pos.of_succ_nat 4)) with 5.
    destruct (Z.ltb_spec s 0).
    - destruct (Z.leb_spec 0 (s + 5)); [lia|]. reflexivity.
    - destruct (Z.leb_spec 0 s), (Z.ltb_spec s 5); try lia; reflexivity. }
  unfold encode_int. cbn [morphs hair_index beard_index age skin_tone].
  split; [|split].
  - split.
    + intros [e He]. destruct (Z_lt_le_dec s (-5)); [lia|].
      destruct (Z_lt_le_dec 4 s); [lia|].
      destruct (Hin ltac:(lia)) as (sv & Hsv & _). rewrite Hsv in He. discriminate He.
    + intros H. rewrite (Hout H). eexists. reflexivity.
  - intros e He. destruct (Z_lt_le_dec s (-5)) as [Hlo|Hlo];
      [rewrite (Hout (or_introl Hlo)) in He; inversion He; reflexivity|].
    destruct (Z_lt_le_dec 4 s) as [Hhi|Hhi];
      [rewrite (Hout (or_intror Hhi)) in He; inversion He; reflexivity|].
    destruct (Hin ltac:(lia)) as (sv & Hsv & _). rewrite Hsv in He. discriminate He.
  - intros H. destruct (Hin ltac:(lia)) as (sv & Hsv & Hwrap).
    rewrite Hsv, (Hwrap ltac:(lia)). reflexivity.
Qed.

End CodecMore.

(** * The data model and the face routes *)

Section ModelMore.
Import PyStr FaceEndpoint FaceRoutes.

Lemma morphs_ok_spec (m : list Z) :
  morphs_ok m = true
  <-> List.length m = 8%nat /\ Forall (fun v => 0 <= v <= 7) m.
Proof.
  unfold morphs_ok. rewrite andb_true_iff, Nat.eqb_eq, forallb_forall, Forall_forall.
  split; intros [Hl Hf]; (split; [exact Hl|]); intros v Hv;
    apply in_range_spec; auto.
Qed.

(** [FaceParameters] accepts its arguments exactly when there are eight
    morphs, each from 0 to 7, hair, beard and age are from 0 to 63 and
    the skin tone is from 0 to 4; it then holds the arguments unchanged.
    Every rejection is a [ValidationError], which is a [ValueError], and
    names at least one field. *)
Theorem FaceParameters_init_spec (m : list Z) (h b a s : Z) :
  (forall p, FaceParameters_init m h b a s = Ok p
     <-> (List.length m = 8%nat /\ Forall (fun v => 0 <= v <= 7) m /\
          0 <= h <= 63 /\ 0 <= b <= 63 /\ 0 <= a <= 63 /\ 0 <= s <= 4 /\
          p = mkFaceParameters m h b a s)) /\
  (forall e, FaceParameters_init m h b a s = Raise e ->
     exists fields, e = ValidationError fields /\ fields <> [] /\
                    is_ValueError e = true).
Proof.
  split.
  - intros p. split.
    + intros H. pose proof (init_valid _ _ _ _ _ _ H) as Hv.
      assert (Hp : p = mkFaceParameters m h b a s).
      { unfold FaceParameters_init in H.
        destruct (FaceParameters_errors _); [|discriminate H].
        apply Ok_inj in H. congruence. }
      subst p. destruct (valid_fields _ Hv) as (Hm & Hh & Hb & Ha & Hs).
      cbn [morphs hair_index beard_index age skin_tone] in *.
      apply morphs_ok_spec in Hm. apply in_range_spec in Hh, Hb, Ha.
      apply skin_tone_ok_spec in Hs. tauto.
    + intros (Hl & Hf & Hh & Hb & Ha & Hs & ->).
      apply fields_valid; try (apply in_range_spec; assumption).
      * apply morphs_ok_spec. split; assumption.
      * apply skin_tone_ok_spec. exact Hs.
  - intros e H. unfold FaceParameters_init in H.
    destruct (FaceParameters_errors _) as [|f fs]; [discriminate H|].
    inversion H; subst. exists (f :: fs). repeat split. discriminate.
Qed.

Lemma hex_run_split (r : string) :
  hex_run_to_end r = true ->
  exists ds tail,
    all_hex ds = true /\ r = (ds ++ tail)%string /\
    (tail = EmptyString \/ tail = String "010" EmptyString).
Proof.
  induction r as [|c r IH]; cbn [hex_run_to_end].
  - intros _. exists EmptyString, EmptyString. repeat split. left. reflexivity.
  - destruct (hex_value c) as [d|] eqn:Hc.
    + intros H. destruct (IH H) as (ds & tail & Hds & -> & Htail).
      exists (String c ds), tail. split; [|split; [reflexivity|exact Htail]].
      cbn [all_hex]. rewrite Hc. exact Hds.
    + intros H. apply andb_true_iff in H as [H1 H2].
      apply Ascii.eqb_eq in H1. apply String.eqb_eq in H2. subst.
      exists EmptyString, (String "010" EmptyString). repeat split.
      right. reflexivity.
Qed.

Lemma scan_hex_tail (ds tail : string) :
  all_hex ds = true ->
  tail = EmptyString \/ tail = String "010" EmptyString ->
  forall acc n,
    scan_digits false acc n (ds ++ tail)
    = Some (hex_fold acc ds, (n + String.length ds)%nat, tail).
Proof.
  intros Hds Htail. induction ds as [|c ds IH]; intros acc n.
  - cbn [append String.length hex_fold]. rewrite Nat.add_0_r.
    destruct Htail as [->| ->]; reflexivity.
  - cbn [all_hex] in Hds. destruct (hex_value c) as [d|] eqn:Hc; [|discriminate].
    cbn [append scan_digits hex_fold String.length].
    rewrite (hex_value_not_underscore c d Hc), Hc, (IH Hds), Nat.add_succ_r.
    reflexivity.
Qed.

Lemma hex_fold_tail (ds tail : string) :
  tail = EmptyString \/ tail = String "010" EmptyString ->
  forall acc, hex_fold acc (ds ++ tail) = hex_fold acc ds.
Proof.
  intros Htail. induction ds as [|c ds IH]; intros acc.
  - destruct Htail as [->| ->]; reflexivity.
  - cbn [append hex_fold]. destruct (hex_value c); [apply IH|reflexivity].
Qed.

(** [int(., 16)] on hexadecimal digits that a single line feed may
    follow, with or without [0x] in front. *)
Lemma parse_int16_digits_tail (c : ascii) (ds tail : string) :
  all_hex (String c ds) = true ->
  tail = EmptyString \/ tail = String "010" EmptyString ->
  parse_int16 (String c ds ++ tail) = Some (hex_fold 0 (String c ds)) /\
  parse_int16 ("0x" ++ String c ds ++ tail) = Some (hex_fold 0 (String c ds)).
Proof.
  intros Hall Htail.
  assert (Hc : exists d, hex_value c = Some d).
  { cbn [all_hex] in Hall. destruct (hex_value c) as [d|]; [eauto|discriminate]. }
  destruct Hc as [d Hc].
  pose proof (hex_value_not_space c d Hc) as Hsp.
  pose proof (hex_value_not_sign c d Hc) as [Hplus Hminus].
  pose proof (hex_value_not_underscore c d Hc) as Hus.
  assert (Hrest : forall t, t = (String c ds ++ tail)%string ->
     (if starts_with_underscore t then None
      else match scan_digits false 0 0%nat t with
           | None => None
           | Some (v, n, rest) =>
               match n with
               | O => None
               | S _ => match skip_space rest with
                        | EmptyString => Some (1 * v)
                        | String _ _ => None
                        end
               end
           end) = Some (hex_fold 0 (String c ds))).
  { intros t ->. cbn [append starts_with_underscore]. rewrite Hus.
    change (String c (ds ++ tail)) with (String c ds ++ tail)%string.
    rewrite (scan_hex_tail _ _ Hall Htail).
    cbn [String.length Nat.add]. rewrite Z.mul_1_l.
    destruct Htail as [->| ->]; reflexivity. }
  split.
  - unfold parse_int16.
    change (String c ds ++ tail)%string with (String c (ds ++ tail)).
    cbn [skip_space]. rewrite Hsp. cbn [strip_sign]. rewrite Hplus, Hminus.
    assert (Hpre : strip_base_prefix (String c (ds ++ tail)) = String c (ds ++ tail)).
    { destruct (ds ++ tail)%string as [|c1 r1] eqn:E; [reflexivity|].
      cbn [strip_base_prefix].
      assert (Hx : Ascii.eqb c1 "x" = false /\ Ascii.eqb c1 "X" = false).
      { destruct ds as [|c2 ds2].
        - cbn [append] in E. destruct Htail as [->| ->]; inversion E. split; reflexivity.
        - cbn [append] in E. inversion E; subst.
          cbn [all_hex] in Hall. rewrite Hc in Hall.
          destruct (hex_value c1) as [d1|] eqn:Hc1; [|discriminate].
          exact (hex_value_not_x c1 d1 Hc1). }
      destruct Hx as [-> ->]. rewrite andb_false_r. reflexivity. }
    rewrite Hpre. apply Hrest. reflexivity.
  - unfold parse_int16.
    change ("0x" ++ String c ds ++ tail)%string
      with (String "0" (String "x" (String c (ds ++ tail)))).
    set (r := (ds ++ tail)%string).
    assert (Hsk : skip_space (String "0" (String "x" (String c r)))
                  = String "0" (String "x" (String c r))) by reflexivity.
    assert (Hsg : strip_sign (String "0" (String "x" (String c r)))
                  = (1, String "0" (String "x" (String c r)))) by reflexivity.
    assert (Hpre : strip_base_prefix (String "0" (String "x" (String c r)))
                   = String c r).
    { unfold strip_base_prefix.
      replace (Ascii.eqb "0" "0" && (Ascii.eqb "x" "x" || Ascii.eqb "x" "X"))
        with true by reflexivity.
      rewrite Hus. reflexivity. }
    rewrite Hsk, Hsg, Hpre. apply Hrest. reflexivity.
Qed.

(** The shape of a string that the [FaceCode] pattern accepts. *)
Lemma pattern_shape (s : string) :
  FaceCode_pattern s = true ->
  exists c ds tail,
    s = ("0x" ++ String c ds ++ tail)%string /\
    all_hex (String c ds) = true /\
    (tail = EmptyString \/ tail = String "010" EmptyString).
Proof.
  intros H.
  destruct s as [|a0 s]; [discriminate H|].
  destruct s as [|a1 s];
    [destruct a0 as [[] [] [] [] [] [] [] []]; discriminate H|].
  destruct s as [|c r];
    [destruct a0 as [[] [] [] [] [] [] [] []]; try discriminate H;
     destruct a1 as [[] [] [] [] [] [] [] []]; discriminate H|].
  assert (Ha0 : a0 = "0"%char).
  { destruct a0 as [[] [] [] [] [] [] [] []]; try discriminate H; reflexivity. }
  subst a0.
  assert (Ha1 : a1 = "x"%char).
  { destruct a1 as [[] [] [] [] [] [] [] []]; try discriminate H; reflexivity. }
  subst a1. cbn [FaceCode_pattern] in H.
  destruct (hex_value c) as [d|] eqn:Hc; [|discriminate H].
  destruct (hex_run_split r H) as (ds & tail & Hds & -> & Htail).
  exists c, ds, tail. split; [reflexivity|]. split; [|exact Htail].
  cbn [all_hex]. rewrite Hc. exact Hds.
Qed.

Lemma pattern_parses (s : string) :
  FaceCode_pattern s = true ->
  exists z, 0 <= z /\ as_int s = Ok z /\ int16 (strip_prefix s) = Ok z /\
            decode_face_code s = Ok (decode_int z).
Proof.
  intros H. destruct (pattern_shape s H) as (c & ds & tail & -> & Hall & Htail).
  destruct (parse_int16_digits_tail c ds tail Hall Htail) as [Hbare Hpref].
  exists (hex_fold 0 (String c ds)).
  assert (Hint : int16 (strip_prefix ("0x" ++ String c ds ++ tail))
                 = Ok (hex_fold 0 (String c ds))).
  { rewrite strip_prefix_0x. unfold int16. rewrite Hbare. reflexivity. }
  split; [apply hex_fold_nonneg; lia|]. split; [|split].
  - unfold as_int, int16. rewrite Hpref. reflexivity.
  - exact Hint.
  - apply decode_after_parse. exact Hint.
Qed.

(** On a string that the [FaceCode] pattern accepts, [as_int] and the
    integer parse inside decode succeed with the same non-negative
    number, so decode returns the fields of the number [as_int] names. *)
Theorem face_code_parses (s : string) :
  FaceCode_pattern s = true ->
  exists z, 0 <= z /\ as_int s = Ok z /\ int16 (strip_prefix s) = Ok z /\
            decode_face_code s = Ok (decode_int z).
Proof. exact (pattern_parses s). Qed.

Lemma face_code_parses_witness :
  exists z, 0 <= z /\ as_int "0xdeadbeef" = Ok z /\
            int16 (strip_prefix "0xdeadbeef") = Ok z /\
            decode_face_code "0xdeadbeef" = Ok (decode_int z).
Proof. apply (face_code_parses "0xdeadbeef"). reflexivity. Defined.

End ModelMore.

Section RoutesMore.
Import PyStr FaceEndpoint FaceRoutes.

Variable str_exn : exn -> string.

(** The decode route never takes its error branch: on every string
    that the [FaceCode] pattern accepts it returns the validated record
    of the decoded fields together with the string it was given. *)
Theorem decode_route_total (s : string) :
  FaceCode_pattern s = true ->
  exists z p,
    as_int s = Ok z /\
    FaceParameters_of_dict (decode_int z) = Ok p /\
    valid p /\
    decode_route str_exn s = Ok (mkDecodedFace p s).
Proof.
  intros H. destruct (pattern_parses s H) as (z & _ & Hint & _ & Hdec).
  exists z. eexists. split; [exact Hint|]. split; [apply decoded_params|].
  split; [exact (init_valid _ _ _ _ _ _ (decoded_params z))|].
  unfold decode_route, try_except. rewrite Hdec. cbn [Py.bind].
  rewrite decoded_params. reflexivity.
Qed.

(** Every string that the [FaceCode] pattern accepts is reported valid
    by the validate operation. *)
Theorem validate_accepts_face_codes (s : string) :
  FaceCode_pattern s = true ->
  validate_face_code str_exn s = Ok (mkValidate true s "Face code is valid").
Proof.
  intros H. destruct (pattern_parses s H) as (z & _ & _ & Hint & _).
  rewrite validate_flag_is_parse. unfold int16 in Hint.
  destruct (parse_int16 (strip_prefix s)); [reflexivity|discriminate Hint].
Qed.

(** The encode route followed by the decode route: for a valid record
    the encode route returns a string that the [FaceCode] pattern
    accepts, and the decode route turns it back into the record, with
    skin tone 4 replaced by 0. *)
Theorem routes_compose (p : FaceParameters) :
  valid p ->
  exists code,
    encode_route str_exn p = Ok code /\
    FaceCode_pattern code = true /\
    decode_route str_exn code
    = Ok (mkDecodedFace
            (mkFaceParameters (morphs p) (hair_index p) (beard_index p) (age p)
               (if skin_tone p =? 4 then 0 else skin_tone p))
            code).
Proof.
  intros Hv.
  destruct (encode_then_decode p Hv) as (x & Hx & Hbound & Henc & Hdec & Hfields & _).
  assert (Hx64 : 0 <= x < 2 ^ 64).
  { assert (2 ^ 48 <= 2 ^ 64) by (apply Z.pow_le_mono_r; lia). lia. }
  destruct (format_016x_spec x Hx64) as (Hlen & Hlow & _).
  exists ("0x" ++ format_016x x)%string. split; [|split].
  - unfold encode_route, try_except. rewrite Henc. reflexivity.
  - apply pattern_of_digits; assumption.
  - unfold decode_route, try_except. rewrite Hdec. cbn [Py.bind].
    rewrite decoded_params, Hfields. reflexivity.
Qed.

End RoutesMore.

Lemma decode_route_total_witness :
  exists z p,
    FaceRoutes.as_int "0xdeadbeef" = Ok z /\
    FaceEndpoint.FaceParameters_of_dict (decode_int z) = Ok p /\
    valid p /\
    FaceRoutes.decode_route (fun _ => EmptyString) "0xdeadbeef"
    = Ok (FaceRoutes.mkDecodedFace p "0xdeadbeef").
Proof.
  apply (decode_route_total (fun _ => EmptyString) "0xdeadbeef"). reflexivity.
Defined.

Lemma validate_accepts_face_codes_witness :
  FaceEndpoint.validate_face_code (fun _ => EmptyString) "0xdeadbeef"
  = Ok (FaceEndpoint.mkValidate true "0xdeadbeef" "Face code is valid").
Proof.
  apply (validate_accepts_face_codes (fun _ => EmptyString) "0xdeadbeef").
  reflexivity.
Defined.

Lemma routes_compose_witness :
  exists code,
    FaceRoutes.encode_route (fun _ => EmptyString) sample_params = Ok code /\
    FaceCode_pattern code = true /\
    FaceRoutes.decode_route (fun _ => EmptyString) code
    = Ok (FaceRoutes.mkDecodedFace sample_params code).
Proof.
  apply (routes_compose (fun _ => EmptyString) sample_params). reflexivity.
Defined.

(** * The profile parser and the upload endpoints *)

Section ParserMore.
Import ProfileParser.

Variable list_characters : filesystem -> string -> result (list char_data).

Lemma build_characters_ok (raws : list char_data) :
  Forall (fun cd => 0 <= cd_sex cd <= 1) raws ->
  build_characters raws = Ok (map sentinel_character raws).
Proof.
  induction 1 as [|cd raws Hcd _ IH]; cbn [build_characters map]; [reflexivity|].
  unfold Character_init. apply in_range_spec in Hcd. rewrite Hcd.
  cbn [Py.bind]. rewrite IH. reflexivity.
Qed.

Lemma build_characters_bad (raws : list char_data) :
  Exists (fun cd => ~ 0 <= cd_sex cd <= 1) raws ->
  build_characters raws = Raise (ValidationError ["sex"%string]).
Proof.
  induction 1 as [cd raws Hcd|cd raws _ IH]; cbn [build_characters];
    unfold Character_init.
  - destruct (in_range 0 1 (cd_sex cd)) eqn:E; [|reflexivity].
    apply in_range_spec in E. contradiction.
  - destruct (in_range 0 1 (cd_sex cd)); [|reflexivity].
    cbn [Py.bind]. rewrite IH. reflexivity.
Qed.

(** The parse operation returns exactly when the enumeration library
    returns records that all carry sex 0 or 1; a single record with
    another sex value makes the whole parse raise a [ValidationError],
    and an exception of the library is passed on unchanged. *)
Theorem parse_profile_spec (fs : filesystem) (profile_path : string) :
  (forall chars,
     parse_profile list_characters fs profile_path = Ok chars
     <-> exists raws,
           list_characters fs profile_path = Ok raws /\
           Forall (fun cd => 0 <= cd_sex cd <= 1) raws /\
           chars = map sentinel_character raws) /\
  (forall raws,
     list_characters fs profile_path = Ok raws ->
     Exists (fun cd => ~ 0 <= cd_sex cd <= 1) raws ->
     parse_profile list_characters fs profile_path
     = Raise (ValidationError ["sex"%string])) /\
  (forall e,
     list_characters fs profile_path = Raise e ->
     parse_profile list_characters fs profile_path = Raise e).
Proof.
  unfold parse_profile. split; [|split].
  - intros chars. split.
    + intros H. destruct (list_characters fs profile_path) as [raws|e];
        cbn [Py.bind] in H; [|discriminate H].
      exists raws. split; [reflexivity|].
      destruct (Forall_Exists_dec (fun cd => 0 <= cd_sex cd <= 1)
                  (fun cd => ltac:(destruct (Z_le_dec 0 (cd_sex cd));
                                   destruct (Z_le_dec (cd_sex cd) 1);
                                   (left; lia) || (right; lia))) raws)
        as [HF|HE].
      * split; [exact HF|]. rewrite (build_characters_ok raws HF) in H.
        apply Ok_inj in H. congruence.
      * rewrite (build_characters_bad raws HE) in H. discriminate H.
    + intros (raws & -> & HF & ->). cbn [Py.bind]. apply build_characters_ok. exact HF.
  - intros raws -> HE. cbn [Py.bind]. apply build_characters_bad. exact HE.
  - intros e ->. reflexivity.
Qed.

End ParserMore.

Section UploadsMore.
Import ProfileParser Uploads.

Variable str_exn : exn -> string.
Variable list_characters : filesystem -> string -> result (list char_data).
Variable UPLOADS_DIR : string.
Variable joinpath : string -> string -> string.
Variable MAX_UPLOAD_SIZE : Z.

Local Abbreviation upload_profile :=
  (upload_profile str_exn list_characters UPLOADS_DIR joinpath MAX_UPLOAD_SIZE).
Local Abbreviation get_characters :=
  (get_characters str_exn list_characters UPLOADS_DIR joinpath).
Local Abbreviation path_of :=
  (ProfilesEndpoint.upload_path_of UPLOADS_DIR joinpath).

Lemma path_exists_unlink (fs : filesystem) (p : string) :
  path_exists (unlink fs p) p = false.
Proof.
  unfold path_exists, unlink. induction fs as [|[q c] fs IH]; [reflexivity|].
  cbn [filter fst]. destruct (String.eqb q p) eqn:E; cbn [negb]; [exact IH|].
  cbn [existsb fst]. rewrite E. exact IH.
Qed.

Lemma read_file_unlink_other (fs : filesystem) (p q : string) :
  q <> p -> read_file (unlink fs p) q = read_file fs q.
Proof.
  intros Hne. unfold unlink. induction fs as [|[r c] fs IH]; [reflexivity|].
  cbn [filter fst read_file]. destruct (String.eqb_spec r p) as [->|Hrp]; cbn [negb].
  - rewrite IH. destruct (String.eqb_spec p q); [congruence|reflexivity].
  - cbn [read_file]. rewrite IH. reflexivity.
Qed.

Lemma read_file_write_same (fs : filesystem) (p : string) (c : list Byte.byte) :
  read_file (write_file fs p c) p = Some c.
Proof. unfold write_file. cbn [read_file]. rewrite String.eqb_refl. reflexivity. Qed.

Lemma read_file_write_other (fs : filesystem) (p q : string) (c : list Byte.byte) :
  q <> p -> read_file (write_file fs p c) q = read_file fs q.
Proof.
  intros Hne. unfold write_file. cbn [read_file].
  destruct (String.eqb_spec p q); [congruence|].
  apply read_file_unlink_other. exact Hne.
Qed.

Lemma path_exists_write (fs : filesystem) (p : string) (c : list Byte.byte) :
  path_exists (write_file fs p c) p = true.
Proof.
  unfold path_exists, write_file. cbn [existsb fst].
  rewrite String.eqb_refl. reflexivity.
Qed.

(** An upload whose name does not end in [.dat], or whose declared size
    exceeds the limit, is answered with a 400; no file is written and
    the route does not close the incoming stream. *)
Theorem upload_gate_rejects (fs : filesystem) (file : UploadFile)
    (fresh_id fname : string) (sz : Z) :
  filename file = Some fname ->
  endswith fname ".dat" = false \/ (size file = Some sz /\ MAX_UPLOAD_SIZE < sz) ->
  exists detail,
    returned (upload_profile fs file fresh_id) = Raise (HTTPException 400 detail) /\
    files_after (upload_profile fs file fresh_id) = fs /\
    stream_closed (upload_profile fs file fresh_id) = false.
Proof.
  intros Hname Hgate. unfold Uploads.upload_profile. rewrite Hname.
  destruct (endswith fname ".dat") eqn:Hext; cbn [negb].
  - destruct Hgate as [Hfalse|[Hsize Hbig]]; [discriminate Hfalse|].
    rewrite Hsize. destruct (Z.gtb_spec sz MAX_UPLOAD_SIZE); [|lia].
    eexists. repeat split.
  - eexists. repeat split.
Qed.

(** An upload that passes the gate but cannot be parsed: the answer is a
    400 carrying the parser's message, no file is left at the upload
    path, every other stored file is as before, the stream is closed,
    and listing the characters of the new identifier finds nothing. *)
Theorem upload_parse_failure_cleans_up (fs : filesystem) (file : UploadFile)
    (fresh_id fname : string) (sz : Z) (e : exn) :
  filename file = Some fname -> endswith fname ".dat" = true ->
  size file = Some sz -> sz <= MAX_UPLOAD_SIZE ->
  parse_profile list_characters
    (write_file fs (path_of fresh_id) (content file)) (path_of fresh_id) = Raise e ->
  returned (upload_profile fs file fresh_id)
  = Raise (HTTPException 400 ("Failed to parse profile: " ++ str_exn e)) /\
  path_exists (files_after (upload_profile fs file fresh_id)) (path_of fresh_id) = false /\
  (forall q, q <> path_of fresh_id ->
     read_file (files_after (upload_profile fs file fresh_id)) q = read_file fs q) /\
  stream_closed (upload_profile fs file fresh_id) = true /\
  get_characters (files_after (upload_profile fs file fresh_id)) fresh_id
  = Raise (HTTPException 404 "Upload not found").
Proof.
  intros Hname Hext Hsize Hsmall Hparse.
  unfold Uploads.upload_profile. rewrite Hname, Hext, Hsize. cbn [negb].
  destruct (Z.gtb_spec sz MAX_UPLOAD_SIZE); [lia|].
  rewrite Hparse, path_exists_write.
  cbn [returned files_after stream_closed].
  split; [reflexivity|]. split; [apply path_exists_unlink|]. split; [|split].
  - intros q Hq. rewrite read_file_unlink_other, read_file_write_other by exact Hq.
    reflexivity.
  - reflexivity.
  - unfold Uploads.get_characters. rewrite path_exists_unlink. reflexivity.
Qed.

(** An upload that passes the gate and parses: the response carries the
    new identifier, the original name, the characters and their number;
    the content is stored at the upload path, every other stored file is
    as before, the stream is closed, and listing the characters of the
    new identifier returns the same characters. *)
Theorem upload_then_list (fs : filesystem) (file : UploadFile)
    (fresh_id fname : string) (sz : Z) (chars : list Character) :
  filename file = Some fname -> endswith fname ".dat" = true ->
  size file = Some sz -> sz <= MAX_UPLOAD_SIZE ->
  parse_profile list_characters
    (write_file fs (path_of fresh_id) (content file)) (path_of fresh_id) = Ok chars ->
  returned (upload_profile fs file fresh_id)
  = Ok (mkUploadResponse fresh_id fname (Z.of_nat (List.length chars)) chars) /\
  read_file (files_after (upload_profile fs file fresh_id)) (path_of fresh_id)
  = Some (content file) /\
  (forall q, q <> path_of fresh_id ->
     read_file (files_after (upload_profile fs file fresh_id)) q = read_file fs q) /\
  stream_closed (upload_profile fs file fresh_id) = true /\
  get_characters (files_after (upload_profile fs file fresh_id)) fresh_id = Ok chars.
Proof.
  intros Hname Hext Hsize Hsmall Hparse.
  unfold Uploads.upload_profile. rewrite Hname, Hext, Hsize. cbn [negb].
  destruct (Z.gtb_spec sz MAX_UPLOAD_SIZE); [lia|].
  rewrite Hparse. cbn [returned files_after stream_closed].
  split; [reflexivity|]. split; [apply read_file_write_same|]. split; [|split].
  - intros q Hq. apply read_file_write_other. exact Hq.
  - reflexivity.
  - unfold Uploads.get_characters. rewrite path_exists_write. cbn [negb].
    rewrite Hparse. reflexivity.
Qed.

(** Listing answers a stored upload that no longer parses with a 400
    carrying the parser's message, and an unknown identifier with a 404. *)
Theorem get_characters_failures (fs : filesystem) (upload_id : string) :
  (path_exists fs (path_of upload_id) = false ->
   get_characters fs upload_id = Raise (HTTPException 404 "Upload not found")) /\
  (forall e, path_exists fs (path_of upload_id) = true ->
     parse_profile list_characters fs (path_of upload_id) = Raise e ->
     get_characters fs upload_id
     = Raise (HTTPException 400 ("Failed to parse profile: " ++ str_exn e))).
Proof.
  unfold Uploads.get_characters. split.
  - intros ->. reflexivity.
  - intros e -> ->. reflexivity.
Qed.

End UploadsMore.

Lemma upload_gate_rejects_witness :
  exists detail,
    Uploads.returned
      (Uploads.upload_profile (fun _ => EmptyString) sample_list_characters
         "/data/uploads" slash_join Uploads.default_MAX_UPLOAD_SIZE
         one_upload text_upload "new")
    = Raise (HTTPException 400 detail) /\
    Uploads.files_after
      (Uploads.upload_profile (fun _ => EmptyString) sample_list_characters
         "/data/uploads" slash_join Uploads.default_MAX_UPLOAD_SIZE
         one_upload text_upload "new") = one_upload /\
    Uploads.stream_closed
      (Uploads.upload_profile (fun _ => EmptyString) sample_list_characters
         "/data/uploads" slash_join Uploads.default_MAX_UPLOAD_SIZE
         one_upload text_upload "new") = false.
Proof.
  apply (upload_gate_rejects (fun _ => EmptyString) sample_list_characters
           "/data/uploads" slash_join Uploads.default_MAX_UPLOAD_SIZE
           one_upload text_upload "new" "notes.txt" 2).
  - reflexivity.
  - left. reflexivity.
Defined.

Lemma upload_parse_failure_cleans_up_witness :
  Uploads.returned
    (Uploads.upload_profile (fun _ => "unreadable"%string) sample_list_characters
       "/data/uploads" slash_join Uploads.default_MAX_UPLOAD_SIZE
       one_upload empty_upload "new")
  = Raise (HTTPException 400 "Failed to parse profile: unreadable") /\
  Uploads.files_after
    (Uploads.upload_profile (fun _ => "unreadable"%string) sample_list_characters
       "/data/uploads" slash_join Uploads.default_MAX_UPLOAD_SIZE
       one_upload empty_upload "new") = one_upload.
Proof.
  pose proof (upload_parse_failure_cleans_up (fun _ => "unreadable"%string)
                sample_list_characters "/data/uploads" slash_join
                Uploads.default_MAX_UPLOAD_SIZE one_upload empty_upload "new"
                "profiles.dat" 0 (OtherException "empty file")
                eq_refl eq_refl eq_refl ltac:(vm_compute; discriminate) eq_refl)
    as (H & _).
  split; [exact H|reflexivity].
Defined.

Lemma upload_then_list_witness :
  Uploads.returned
    (Uploads.upload_profile (fun _ => EmptyString) sample_list_characters
       "/data/uploads" slash_join Uploads.default_MAX_UPLOAD_SIZE
       one_upload good_upload "new")
  = Ok (Uploads.mkUploadResponse "new" "profiles.dat" 2
          (map sentinel_character two_raw_records)) /\
  Uploads.get_characters (fun _ => EmptyString) sample_list_characters
    "/data/uploads" slash_join
    (Uploads.files_after
       (Uploads.upload_profile (fun _ => EmptyString) sample_list_characters
          "/data/uploads" slash_join Uploads.default_MAX_UPLOAD_SIZE
          one_upload good_upload "new")) "new"
  = Ok (map sentinel_character two_raw_records).
Proof.
  pose proof (upload_then_list (fun _ => EmptyString) sample_list_characters
                "/data/uploads" slash_join Uploads.default_MAX_UPLOAD_SIZE
                one_upload good_upload "new" "profiles.dat" 2
                (map sentinel_character two_raw_records)
                eq_refl eq_refl eq_refl ltac:(vm_compute; discriminate) eq_refl)
    as (H1 & _ & _ & _ & H2).
  split; [exact H1|exact H2].
Defined.

(** * The real-time channel: the other messages and the loop *)

(** Encoding a valid record succeeds with a string that the [FaceCode]
    pattern accepts. *)
Lemma canonical_encoding_format_parts (p : FaceParameters) :
  valid p ->
  exists code, encode_face_code p = Ok code /\ FaceCode_pattern code = true.
Proof.
  intros Hv.
  destruct (encode_then_decode p Hv) as (x & _ & Hbound & Henc & _).
  assert (Hx64 : 0 <= x < 2 ^ 64).
  { assert (2 ^ 48 <= 2 ^ 64) by (apply Z.pow_le_mono_r; lia). lia. }
  destruct (format_016x_spec x Hx64) as (Hlen & Hlow & _).
  eexists. split; [exact Henc|]. apply pattern_of_digits; assumption.
Qed.


Section ChannelMore.
Import WebSocket.

Variable str_exn : exn -> string.
Variable json_loads : string -> result json.
Variable json_dumps : json -> string.
Variable coerce_int : json -> option Z.

Local Abbreviation handle_text :=
  (handle_text str_exn json_loads json_dumps coerce_int).
Local Abbreviation serve :=
  (serve str_exn json_loads json_dumps coerce_int).

Lemma eq_str_refl (s : string) : eq_str (Some (JStr s)) s = true.
Proof. cbn [eq_str]. apply String.eqb_refl. Qed.

(** A ping is answered by exactly one pong frame and the loop goes on. *)
Theorem ping_gets_pong (data : string) (members : list (string * json))
    (rest : list event) (sent : list string) :
  json_loads data = Ok (JObj members) ->
  assoc "type" members = Some (JStr "ping") ->
  serve (Text data :: rest) sent = serve rest (sent ++ [pong_frame json_dumps])%list.
Proof.
  intros Hload Hty. cbn [WebSocket.serve]. unfold WebSocket.handle_text.
  rewrite Hload. cbn [py_get]. rewrite Hty.
  replace (eq_str (Some (JStr "ping")) "face_update") with false by reflexivity.
  rewrite eq_str_refl. reflexivity.
Qed.

(** An object whose type is neither "face_update" nor "ping", or that
    has no type, gets no frame, and the loop goes on. *)
Theorem other_type_is_ignored (data : string) (members : list (string * json))
    (rest : list event) (sent : list string) :
  json_loads data = Ok (JObj members) ->
  assoc "type" members <> Some (JStr "face_update") ->
  assoc "type" members <> Some (JStr "ping") ->
  serve (Text data :: rest) sent = serve rest sent.
Proof.
  intros Hload Hfu Hping. cbn [WebSocket.serve]. unfold WebSocket.handle_text.
  rewrite Hload. cbn [py_get].
  assert (Hne : forall s, assoc "type" members <> Some (JStr s) ->
                          eq_str (assoc "type" members) s = false).
  { intros s Hs. destruct (assoc "type" members) as [[]|]; try reflexivity.
    cbn [eq_str]. destruct (String.eqb_spec s0 s); [subst; contradiction|reflexivity]. }
  rewrite (Hne _ Hfu), (Hne _ Hping). reflexivity.
Qed.

(** Text that is no JSON, or JSON that is no object, ends the handler
    with the exception uncaught and nothing sent, although the
    [JSONDecodeError] is a [ValueError]: it is raised outside the inner
    [try]. *)
Theorem unreadable_text_is_fatal (data : string) (rest : list event)
    (sent : list string) :
  (forall msg, json_loads data = Raise (JSONDecodeError msg) ->
     is_ValueError (JSONDecodeError msg) = true /\
     serve (Text data :: rest) sent = (Fault (JSONDecodeError msg), sent)) /\
  (forall v, json_loads data = Ok v -> (forall members, v <> JObj members) ->
     exists msg, serve (Text data :: rest) sent = (Fault (AttributeError msg), sent)).
Proof.
  split.
  - intros msg Hload. split; [reflexivity|].
    cbn [WebSocket.serve]. unfold WebSocket.handle_text. rewrite Hload. reflexivity.
  - intros v Hload Hv. cbn [WebSocket.serve]. unfold WebSocket.handle_text.
    rewrite Hload. destruct v; try (eexists; reflexivity).
    exfalso. eapply Hv. reflexivity.
Qed.

Lemma int_field_ok (kvs : list (string * json)) (name : string)
    (ok : Z -> bool) (z : Z) :
  int_field coerce_int kvs name ok = Some z -> ok z = true.
Proof.
  unfold int_field. destruct (assoc name kvs); [|discriminate].
  destruct (coerce_int j) as [z'|]; [|discriminate].
  destruct (ok z') eqn:E; [|discriminate]. intros H. inversion H. subst. exact E.
Qed.

Lemma morphs_field_ok (kvs : list (string * json)) (m : list Z) :
  morphs_field coerce_int kvs = Some m -> morphs_ok m = true.
Proof.
  unfold morphs_field. destruct (assoc "morphs" kvs) as [[]|]; try discriminate.
  destruct (coerce_ints coerce_int items) as [zs|]; [|discriminate].
  destruct (morphs_ok zs) eqn:E; [|discriminate]. intros H. inversion H. subst. exact E.
Qed.

(** A record built from a JSON object satisfies the range constraints. *)
Lemma FaceParameters_of_json_valid (parameters : json) (p : FaceParameters) :
  FaceParameters_of_json coerce_int parameters = Ok p -> valid p.
Proof.
  unfold FaceParameters_of_json. destruct parameters; try discriminate.
  destruct (morphs_field coerce_int members) as [m|] eqn:Hm;
  destruct (int_field coerce_int members "hair_index" index_ok) as [h|] eqn:Hh;
  destruct (int_field coerce_int members "beard_index" index_ok) as [b|] eqn:Hb;
  destruct (int_field coerce_int members "age" index_ok) as [a|] eqn:Ha;
  destruct (int_field coerce_int members "skin_tone" skin_tone_ok) as [s|] eqn:Hs;
    try discriminate.
  intros H. apply Ok_inj in H. subst p. unfold valid.
  cbn [morphs hair_index beard_index age skin_tone].
  apply fields_valid;
    eauto using morphs_field_ok, int_field_ok.
Qed.

(** A [face_update] whose parameters validate is answered by one
    response frame that echoes the validated record and carries the face
    code of the standalone encode operation, a string that the
    [FaceCode] pattern accepts; the loop goes on. *)
Theorem face_update_gets_code (data : string) (members : list (string * json))
    (parameters : json) (p : FaceParameters) (rest : list event)
    (sent : list string) :
  json_loads data = Ok (JObj members) ->
  assoc "type" members = Some (JStr "face_update") ->
  assoc "parameters" members = Some parameters ->
  FaceParameters_of_json coerce_int parameters = Ok p ->
  exists code,
    encode_face_code p = Ok code /\
    FaceCode_pattern code = true /\
    serve (Text data :: rest) sent
    = serve rest (sent ++ [response_frame json_dumps p code])%list.
Proof.
  intros Hload Hty Hpar Hval.
  pose proof (FaceParameters_of_json_valid _ _ Hval) as Hv.
  destruct (canonical_encoding_format_parts p Hv) as (code & Hcode & Hpat).
  exists code. split; [exact Hcode|]. split; [exact Hpat|].
  cbn [WebSocket.serve]. unfold WebSocket.handle_text.
  rewrite Hload. cbn [py_get]. rewrite Hty, eq_str_refl.
  unfold face_update_body. cbn [py_subscript]. rewrite Hpar. cbn [Py.bind].
  rewrite Hval. cbn [Py.bind]. rewrite Hcode. reflexivity.
Qed.

End ChannelMore.

Section LoopMore.
Import WebSocket.

Variable str_exn : exn -> string.
Variable json_loads : string -> result json.
Variable json_dumps : json -> string.
Variable coerce_int : json -> option Z.

Local Abbreviation handle_text :=
  (handle_text str_exn json_loads json_dumps coerce_int).
Local Abbreviation serve :=
  (serve str_exn json_loads json_dumps coerce_int).

Lemma handle_text_frames (data : string) (sent : list string) :
  exists new,
    snd (handle_text data sent) = (sent ++ new)%list /\ (List.length new <= 1)%nat.
Proof.
  unfold WebSocket.handle_text.
  assert (H0 : exists new, sent = (sent ++ new)%list /\ (List.length new <= 1)%nat)
    by (exists []; rewrite app_nil_r; split; [reflexivity|simpl; lia]).
  assert (H1 : forall f, exists new,
             (sent ++ [f])%list = (sent ++ new)%list /\ (List.length new <= 1)%nat)
    by (intros f; exists [f]; split; [reflexivity|simpl; lia]).
  destruct (json_loads data) as [update|e]; [|exact H0].
  destruct (py_get update "type") as [ty|e]; [|exact H0].
  destruct (eq_str ty "face_update").
  - destruct (face_update_body json_dumps coerce_int update) as [frame|e];
      [apply H1|].
    destruct (is_ValueError e); [apply H1|exact H0].
  - destruct (eq_str ty "ping"); [apply H1|exact H0].
Qed.

(** The handler only ever appends to what it has sent, and it sends at
    most one frame for each event it is given. *)
Theorem serve_appends_frames (events : list event) :
  forall sent,
    exists new,
      snd (serve events sent) = (sent ++ new)%list /\
      (List.length new <= List.length events)%nat.
Proof.
  induction events as [|ev events IH]; intros sent.
  - exists []. rewrite app_nil_r. split; [reflexivity|simpl; lia].
  - destruct ev as [data|].
    + cbn [WebSocket.serve].
      destruct (handle_text_frames data sent) as (new1 & Hnew1 & Hlen1).
      destruct (handle_text data sent) as [[u|e] sent'] eqn:Hturn;
        cbn [snd] in Hnew1; subst sent'.
      * destruct (IH (sent ++ new1)%list) as (new2 & Hnew2 & Hlen2).
        exists (new1 ++ new2)%list. rewrite Hnew2, app_assoc, length_app.
        split; [reflexivity|simpl; lia].
      * exists new1. split; [destruct e; reflexivity|simpl; lia].
    + exists []. rewrite app_nil_r. split; [reflexivity|simpl; lia].
Qed.

(** Events are handled in order, and once the handler has returned or
    has been torn down it reads nothing more: running it on two batches
    of events is running it on the first and, only if it is still
    waiting, on the second with the frames sent so far. *)
Theorem serve_batches (events more : list event) :
  forall sent,
    serve (events ++ more) sent
    = match serve events sent with
      | (Waiting, sent') => serve more sent'
      | finished => finished
      end.
Proof.
  induction events as [|ev events IH]; intros sent; [reflexivity|].
  destruct ev as [data|]; cbn [app WebSocket.serve]; [|reflexivity].
  destruct (handle_text data sent) as [[u|e] sent'].
  - apply IH.
  - destruct e; reflexivity.
Qed.

Lemma coerce_ints_JInt (ms : list Z) :
  (forall z, coerce_int (JInt z) = Some z) ->
  coerce_ints coerce_int (map JInt ms) = Some ms.
Proof.
  intros Hc. induction ms as [|m ms IH]; cbn [map coerce_ints]; [reflexivity|].
  rewrite Hc, IH. reflexivity.
Qed.

(** When the validation library reads a JSON integer as that integer,
    the parameters echoed in a response frame, sent back as they are,
    build the same record again. *)
Theorem echoed_parameters_are_accepted (p : FaceParameters) :
  (forall z, coerce_int (JInt z) = Some z) ->
  valid p ->
  FaceParameters_of_json coerce_int (params_dict p) = Ok p.
Proof.
  intros Hc Hv. destruct (valid_fields p Hv) as (Hm & Hh & Hb & Ha & Hs).
  destruct p as [m h b a s]. cbn [morphs hair_index beard_index age skin_tone] in *.
  unfold params_dict, FaceParameters_of_json.
  cbn [morphs hair_index beard_index age skin_tone].
  assert (HM : morphs_field coerce_int
                 [("morphs"%string, JList (map JInt m)); ("hair_index"%string, JInt h);
                  ("beard_index"%string, JInt b); ("age"%string, JInt a);
                  ("skin_tone"%string, JInt s)] = Some m).
  { unfold morphs_field.
    replace (assoc "morphs" _) with (Some (JList (map JInt m))) by reflexivity.
    rewrite (coerce_ints_JInt m Hc), Hm. reflexivity. }
  assert (HI : forall name ok z,
             assoc name
               [("morphs"%string, JList (map JInt m)); ("hair_index"%string, JInt h);
                ("beard_index"%string, JInt b); ("age"%string, JInt a);
                ("skin_tone"%string, JInt s)] = Some (JInt z) ->
             ok z = true ->
             int_field coerce_int
               [("morphs"%string, JList (map JInt m)); ("hair_index"%string, JInt h);
                ("beard_index"%string, JInt b); ("age"%string, JInt a);
                ("skin_tone"%string, JInt s)] name ok = Some z).
  { intros name ok z Hl Hok. unfold int_field. rewrite Hl, Hc, Hok. reflexivity. }
  rewrite HM, (HI "hair_index"%string index_ok h eq_refl Hh),
    (HI "beard_index"%string index_ok b eq_refl Hb),
    (HI "age"%string index_ok a eq_refl Ha),
    (HI "skin_tone"%string skin_tone_ok s eq_refl Hs).
  reflexivity.
Qed.

End LoopMore.

Lemma ping_gets_pong_witness :
  WebSocket.serve (fun _ => EmptyString) more_loads sample_dumps sample_coerce_int
    [WebSocket.Text ping_text; WebSocket.Disconnect] []
  = (WebSocket.Closed, [WebSocket.pong_frame sample_dumps]).
Proof.
  rewrite (ping_gets_pong (fun _ => EmptyString) more_loads sample_dumps
             sample_coerce_int ping_text [("type"%string, WebSocket.JStr "ping")]
             [WebSocket.Disconnect] [] eq_refl eq_refl).
  reflexivity.
Defined.

Lemma other_type_is_ignored_witness :
  WebSocket.serve (fun _ => EmptyString) more_loads sample_dumps sample_coerce_int
    [WebSocket.Text other_text; WebSocket.Text ping_text] []
  = (WebSocket.Waiting, [WebSocket.pong_frame sample_dumps]).
Proof.
  rewrite (other_type_is_ignored (fun _ => EmptyString) more_loads sample_dumps
             sample_coerce_int other_text [("type"%string, WebSocket.JStr "unknown")]
             [WebSocket.Text ping_text] [] eq_refl
             ltac:(vm_compute; discriminate) ltac:(vm_compute; discriminate)).
  reflexivity.
Defined.

Lemma face_update_gets_code_witness :
  exists code,
    encode_face_code sample_params = Ok code /\
    FaceCode_pattern code = true /\
    WebSocket.serve (fun _ => EmptyString) more_loads sample_dumps sample_coerce_int
      [WebSocket.Text sample_update_text] []
    = WebSocket.serve (fun _ => EmptyString) more_loads sample_dumps sample_coerce_int
        [] ([] ++ [WebSocket.response_frame sample_dumps sample_params code])%list.
Proof.
  apply (face_update_gets_code (fun _ => EmptyString) more_loads sample_dumps
           sample_coerce_int sample_update_text
           [("type"%string, WebSocket.JStr "face_update");
            ("parameters"%string, WebSocket.params_dict sample_params)]
           (WebSocket.params_dict sample_params) sample_params [] []);
    reflexivity.
Defined.

Lemma echoed_parameters_are_accepted_witness :
  WebSocket.FaceParameters_of_json sample_coerce_int
    (WebSocket.params_dict sample_params) = Ok sample_params.
Proof.
  apply (echoed_parameters_are_accepted sample_coerce_int sample_params).
  - intros z. reflexivity.
  - reflexivity.
Defined.

(** * Round trips and validation, end to end *)

Section EndToEnd.
Import PyStr FaceEndpoint.

(** Round trip on the valid records whose skin tone is not 4: the
    string that encode returns decodes to fields from which
    [FaceParameters] builds the very same record. *)
Theorem round_trip_identity_below_4 (p : FaceParameters) :
  valid p -> skin_tone p <> 4 ->
  exists code d,
    encode_face_code p = Ok code /\
    decode_face_code code = Ok d /\
    d = mkFaceDict (morphs p) (hair_index p) (beard_index p) (age p) (skin_tone p) /\
    FaceParameters_of_dict d = Ok p.
Proof.
  intros Hv Hs. destruct (round_trip_below_4 p Hv Hs) as (code & Henc & Hdec).
  exists code. eexists. split; [exact Henc|]. split; [exact Hdec|].
  split; [reflexivity|]. unfold FaceParameters_of_dict.
  cbn [d_morphs d_hair_index d_beard_index d_age d_skin_tone]. exact Hv.
Qed.

Lemma round_trip_identity_below_4_witness :
  exists code d,
    encode_face_code sample_params = Ok code /\
    decode_face_code code = Ok d /\
    d = mkFaceDict [0; 1; 2; 3; 4; 5; 6; 7] 10 20 30 2 /\
    FaceParameters_of_dict d = Ok sample_params.
Proof.
  apply (round_trip_identity_below_4 sample_params); [reflexivity|].
  vm_compute. discriminate.
Defined.

(** Whatever string decode accepts, the fields it returns pass the
    validation of [FaceParameters]: every morph is from 0 to 7, hair,
    beard and age are from 0 to 63 and the skin tone is from 0 to 4. *)
Theorem decode_output_validates (hex_code : string) (d : face_dict) :
  decode_face_code hex_code = Ok d ->
  exists p,
    FaceParameters_of_dict d = Ok p /\ valid p /\
    List.length (morphs p) = 8%nat /\
    Forall (fun v => 0 <= v <= 7) (morphs p) /\
    0 <= hair_index p <= 63 /\ 0 <= beard_index p <= 63 /\
    0 <= age p <= 63 /\ 0 <= skin_tone p <= 4.
Proof.
  unfold decode_face_code. intros H.
  destruct (int16 (strip_prefix hex_code)) as [z|e]; cbn [Py.bind] in H;
    [|discriminate H].
  apply Ok_inj in H. subst d.
  destruct (decoded_fields_accepted z) as [p Hp]. exists p.
  pose proof Hp as Hv. unfold FaceParameters_of_dict in Hv.
  apply init_valid in Hv.
  destruct (valid_fields p Hv) as (Hm & Hh & Hb & Ha & Hs).
  apply morphs_ok_spec in Hm. apply in_range_spec in Hh, Hb, Ha.
  apply skin_tone_ok_spec in Hs. tauto.
Qed.

Lemma decode_output_validates_witness :
  exists p,
    FaceParameters_of_dict (decode_int (-255)) = Ok p /\ valid p /\
    List.length (morphs p) = 8%nat /\
    Forall (fun v => 0 <= v <= 7) (morphs p) /\
    0 <= hair_index p <= 63 /\ 0 <= beard_index p <= 63 /\
    0 <= age p <= 63 /\ 0 <= skin_tone p <= 4.
Proof.
  apply (decode_output_validates "-ff" (decode_int (-255))).
  vm_compute. reflexivity.
Defined.

(** The validate operation reports a string valid exactly when the
    string, without a leading [0x], is one that [int(., 16)] reads: the
    range validation that follows can never turn the answer to false. *)
Theorem validate_reports_parse (str_exn : exn -> string) (face_code : string) :
  exists r,
    validate_face_code str_exn face_code = Ok r /\
    echoed_face_code r = face_code /\
    (valid_flag r = true <-> exists z, int16 (strip_prefix face_code) = Ok z).
Proof.
  rewrite validate_flag_is_parse. unfold int16.
  destruct (parse_int16 (strip_prefix face_code)) as [z|];
    eexists; (split; [reflexivity|]); (split; [reflexivity|]);
    cbn [valid_flag]; split.
  - intros _. exists z. reflexivity.
  - reflexivity.
  - discriminate.
  - intros [z Hz]. discriminate Hz.
Qed.

(** The palette indices 0 to 3 are placed in bits 42-47 as the codes 0,
    16, 32 and 48, and decoding the accumulator gives the index back. *)
Theorem palette_indices_below_4 (p : FaceParameters) (x : Z) :
  valid p -> skin_tone p <> 4 -> encode_int p = Ok x ->
  bits_at 42 6 x = 16 * skin_tone p /\
  d_skin_tone (decode_int x) = skin_tone p.
Proof. exact (palette_codes_below_4 p x). Qed.

Lemma palette_indices_below_4_witness :
  bits_at 42 6 142820731700872 = 16 * 2 /\
  d_skin_tone (decode_int 142820731700872) = 2.
Proof.
  apply (palette_indices_below_4 sample_params 142820731700872).
  - reflexivity.
  - vm_compute. discriminate.
  - reflexivity.
Defined.

End EndToEnd.
